(** * requests: session settings, redirects, digest authentication, adapters

    A shallow embedding of the request/response lifecycle core of the
    [requests] package ([sessions.py], [auth.py], [adapters.py]) and the
    properties its specification states about it.

    Python values are dynamically typed: the embedding keeps a small
    universe of values ([Py.value]) where the source branches on the type
    of a value ([is None], [isinstance(_, Mapping)], [== []]), and plain
    Rocq types elsewhere.  Python's standard library ([urllib.parse],
    [hashlib], [os.path], [time], [os.urandom]) is not part of the package:
    the functions taken from it are Section variables, so every theorem
    holds for all of them. *)

From Stdlib Require Import String Ascii List ZArith NArith Lia Bool.
Import ListNotations.
Local Open Scope string_scope.

(* ===================================================================== *)
(** ** Python values and builtins used by the sources *)
(* ===================================================================== *)

Module Py.

(** The Python values the modelled functions inspect.  A dict is kept as its
    items in insertion order (the sources build [OrderedDict]s). *)
#[warnings="-register-all"]
Inductive value : Type :=
| VNone
| VBool (b : bool)
| VInt (z : Z)
| VStr (s : string)
| VCallable (id : nat)
| VList (l : list value)
| VTuple (l : list value)
| VDict (items : list (string * value)).

(** Exceptions the modelled code can raise.  [ProtocolError] is urllib3's
    class with its subclasses, [socket_error] is an exception raised as
    [socket.error], that is [OSError], and [ConnectionError] is the
    package's own, which derives from [IOError] and carries the exception it
    wraps.  [OtherError] stands for an exception of the builtin class it
    names. *)
Inductive exn : Type :=
| UnboundLocalError (name : string)
| AttributeError (what : string)
| ProtocolError (msg : string)
| socket_error (msg : string)
| ConnectionError (cause : exn)
| OtherError (name : string).

(** The builtin classes that are [OSError] or derive from it; [IOError] and
    [EnvironmentError] are other names of [OSError]. *)
Definition OSError_classes : list string :=
  ["OSError"; "IOError"; "EnvironmentError"; "BlockingIOError";
   "ChildProcessError"; "ConnectionError"; "BrokenPipeError";
   "ConnectionAbortedError"; "ConnectionRefusedError";
   "ConnectionResetError"; "FileExistsError"; "FileNotFoundError";
   "InterruptedError"; "IsADirectoryError"; "NotADirectoryError";
   "PermissionError"; "ProcessLookupError"; "TimeoutError"].

(** [isinstance(e, OSError)] *)
Definition is_OSError (e : exn) : bool :=
  match e with
  | socket_error _ | ConnectionError _ => true
  | OtherError name => existsb (String.eqb name) OSError_classes
  | UnboundLocalError _ | AttributeError _ | ProtocolError _ => false
  end.

(** The outcome of a call: a returned value or a raised exception. *)
Inductive outcome (A : Type) : Type :=
| Return (a : A)
| Raise (e : exn).
Arguments Return {A} a.
Arguments Raise {A} e.

Definition is_none (v : value) : bool :=
  match v with VNone => true | _ => false end.

(** [isinstance(v, Mapping)] *)
Definition is_mapping (v : value) : bool :=
  match v with VDict _ => true | _ => false end.

(** [v == []] *)
Definition eq_empty_list (v : value) : bool :=
  match v with VList [] => true | _ => false end.

(** Truthiness of a value, as tested by [if v:]. *)
Definition truthy (v : value) : bool :=
  match v with
  | VNone => false
  | VBool b => b
  | VInt z => negb (z =? 0)%Z
  | VStr s => negb (s =? "")
  | VCallable _ => true
  | VList l | VTuple l => match l with [] => false | _ => true end
  | VDict d => match d with [] => false | _ => true end
  end.

(** *** Dictionaries *)

Section Dict.
Context {V : Type}.

(** [d.get(k)]: the value bound to [k], if any. *)
Fixpoint dict_get (k : string) (d : list (string * V)) : option V :=
  match d with
  | [] => None
  | (k', v) :: t => if k' =? k then Some v else dict_get k t
  end.

(** [d[k] = v] on an ordered dict: an existing key keeps its place, a new
    key goes to the end. *)
Fixpoint od_insert (k : string) (v : V) (d : list (string * V)) : list (string * V) :=
  match d with
  | [] => [(k, v)]
  | (k', v') :: t =>
      if k' =? k then (k', v) :: t else (k', v') :: od_insert k v t
  end.

(** [d.update(items)] *)
Definition od_update (d items : list (string * V)) : list (string * V) :=
  fold_left (fun acc kv => od_insert (fst kv) (snd kv) acc) items d.

(** [OrderedDict(items)] *)
Definition dict_class (items : list (string * V)) : list (string * V) :=
  od_update [] items.

(** The binding a sequence of items gives a key once it is loaded into a
    dict: the last one. *)
Fixpoint items_get (k : string) (items : list (string * V)) : option V :=
  match items with
  | [] => None
  | (k', v) :: t =>
      match items_get k t with
      | Some w => Some w
      | None => if k' =? k then Some v else None
      end
  end.

End Dict.

(** *** Errors as outcomes *)

Definition bind {A B : Type} (m : outcome A) (f : A -> outcome B) : outcome B :=
  match m with
  | Return a => f a
  | Raise e => Raise e
  end.

(** [d.get(k)] on a value: [None] for a missing key, [AttributeError] when
    the value is no dict. *)
Definition py_get (v : value) (k : string) : outcome value :=
  match v with
  | VDict d =>
      Return (match dict_get k d with Some x => x | None => VNone end)
  | _ => Raise (AttributeError "get")
  end.

(** *** Strings *)

Definition is_upper (c : ascii) : bool :=
  (65 <=? nat_of_ascii c)%nat && (nat_of_ascii c <=? 90)%nat.

Definition is_lower (c : ascii) : bool :=
  (97 <=? nat_of_ascii c)%nat && (nat_of_ascii c <=? 122)%nat.

Definition lower_char (c : ascii) : ascii :=
  if is_upper c then ascii_of_nat (nat_of_ascii c + 32) else c.

Definition upper_char (c : ascii) : ascii :=
  if is_lower c then ascii_of_nat (nat_of_ascii c - 32) else c.

Fixpoint str_map (f : ascii -> ascii) (s : string) : string :=
  match s with
  | "" => ""
  | String c t => String (f c) (str_map f t)
  end.

(** [s.isascii()]: every character is below 128. *)
Fixpoint isascii (s : string) : bool :=
  match s with
  | "" => true
  | String c t => (nat_of_ascii c <? 128)%nat && isascii t
  end.

(** [s.lower()] and [s.upper()] of a string that [isascii]: the letters a-z
    and A-Z change case and nothing else does.  Python also changes the case
    of letters outside ASCII, which these two leave alone, so they stand for
    the methods on ASCII strings only. *)
Definition lower (s : string) : string := str_map lower_char s.
Definition upper (s : string) : string := str_map upper_char s.

(** [needle in hay] *)
Fixpoint contains (needle hay : string) : bool :=
  String.prefix needle hay ||
  match hay with
  | "" => false
  | String _ t => contains needle t
  end.

(** [s.split(sep)] for a one-character separator *)
Fixpoint split (sep : ascii) (s : string) : list string :=
  match s with
  | "" => [""]
  | String c t =>
      if Ascii.eqb c sep then "" :: split sep t
      else match split sep t with
           | [] => [String c ""]
           | h :: r => String c h :: r
           end
  end.

(** [x in l] for a list of strings *)
Definition str_in (x : string) (l : list string) : bool :=
  existsb (String.eqb x) l.

(** [s[:n]] *)
Definition take (n : nat) (s : string) : string := substring 0 n s.

(** The text before the first character satisfying [p], and the rest
    (starting at that character). *)
Fixpoint break_at (p : ascii -> bool) (s : string) : string * string :=
  match s with
  | "" => ("", "")
  | String c t =>
      if p c then ("", s)
      else let (a, b) := break_at p t in (String c a, b)
  end.

Fixpoint has_char (c : ascii) (s : string) : bool :=
  match s with
  | "" => false
  | String a t => Ascii.eqb a c || has_char c t
  end.

(** [s.rpartition(sep)[2]]: the text after the last [sep] (all of [s]
    when there is none). *)
Fixpoint after_last (sep : ascii) (s : string) : string :=
  match s with
  | "" => ""
  | String a t =>
      if has_char sep t then after_last sep t
      else if Ascii.eqb a sep then t else s
  end.

(** *** Numbers as text *)

Definition digit_char (d : N) : ascii :=
  match String.get (N.to_nat d) "0123456789abcdef" with
  | Some c => c
  | None => "0"%char
  end.

(** The digits of [n] in base [b], least significant first. *)
Fixpoint digits_le (b : N) (fuel : nat) (n : N) : list N :=
  match fuel with
  | O => []
  | S f =>
      (n mod b)%N :: (if (n / b =? 0)%N then [] else digits_le b f (n / b)%N)
  end.


Definition string_of_digits (ds : list N) : string :=
  fold_left (fun acc d => String (digit_char d) acc) ds "".

Definition to_base (b : N) (n : N) : string :=
  string_of_digits (digits_le b (S (N.to_nat (N.log2 n))) n).

(** [str(n)] for a natural number *)
Definition str_of_N (n : N) : string := to_base 10 n.

Fixpoint zeros (k : nat) : string :=
  match k with
  | O => ""
  | S k' => String "0" (zeros k')
  end.

(** ['%08x' % n]: lower-case hexadecimal, zero-padded on the left to a
    width of eight. *)
Definition fmt_08x (n : N) : string :=
  let h := to_base 16 n in
  zeros (8 - String.length h) ++ h.




(** [int(s)] for a decimal numeral, [None] when [s] is not one. *)
Fixpoint dec_value_from (acc : Z) (s : string) : option Z :=
  match s with
  | "" => Some acc
  | String c t =>
      let k := nat_of_ascii c in
      if (48 <=? k)%nat && (k <=? 57)%nat
      then dec_value_from (acc * 10 + Z.of_nat (k - 48))%Z t
      else None
  end.

(** The double-quote character, and a text between double quotes. *)
Definition dq : string := String (ascii_of_nat 34) "".
Definition quoted (s : string) : string := dq ++ s ++ dq.

(** ['%s' % v] for a string or [None] *)
Definition fmt_s (o : option string) : string :=
  match o with
  | Some s => s
  | None => "None"
  end.

(** Truthiness of a string or [None] *)
Definition nonempty (o : option string) : bool :=
  match o with
  | Some s => negb (s =? "")
  | None => false
  end.

End Py.

(* ===================================================================== *)
(** ** Collaborators outside the six source files *)
(* ===================================================================== *)

Module Urllib.

(** The attributes of [urllib.parse.urlparse]'s result that the sources
    read. *)
Record ParseResult : Type := mkParseResult {
  scheme : string;
  hostname : option string;
  port : option Z;
  path : string;
  query : string
}.

Definition is_path_start (c : ascii) : bool :=
  Ascii.eqb c "/" || Ascii.eqb c "?" || Ascii.eqb c "#".

Definition drop_first (s : string) : string :=
  match s with
  | "" => ""
  | String _ t => t
  end.

(** A reference instance of [urlparse], for evaluating the functions below
    at concrete URLs of the form
    [scheme://[userinfo@]host[:port][/path][?query][#fragment]]: the scheme
    and the host name are lower-cased, an absent port is [None]. *)
Definition urlparse (url : string) : ParseResult :=
  let (sch, rest) := Py.break_at (Ascii.eqb ":") url in
  match rest with
  | String ":" (String "/" (String "/" after)) =>
      let (netloc, tail) := Py.break_at is_path_start after in
      let (path_query, _) := Py.break_at (Ascii.eqb "#") tail in
      let (pth, q) := Py.break_at (Ascii.eqb "?") path_query in
      let hostinfo := Py.after_last "@" netloc in
      let (host, p) := Py.break_at (Ascii.eqb ":") hostinfo in
      {| scheme := Py.lower sch;
         hostname := if host =? "" then None else Some (Py.lower host);
         port := if drop_first p =? "" then None
                 else Py.dec_value_from 0 (drop_first p);
         path := pth;
         query := drop_first q |}
  | _ =>
      let (path_query, _) := Py.break_at (Ascii.eqb "#") url in
      let (pth, q) := Py.break_at (Ascii.eqb "?") path_query in
      {| scheme := ""; hostname := None; port := None;
         path := pth; query := drop_first q |}
  end.

End Urllib.

Module Models.

(** Modelled from the spec: [CaseInsensitiveDict] of [requests/structures.py]
    (not among the sources); section 3 gives headers as a "mapping,
    case-insensitive keys".  Lookup compares lower-cased keys; assignment
    replaces the binding of a key that differs only in case. *)
Section CaseInsensitiveDict.
Context {V : Type}.

Fixpoint ci_get (k : string) (d : list (string * V)) : option V :=
  match d with
  | [] => None
  | (k', v) :: t =>
      if Py.lower k' =? Py.lower k then Some v else ci_get k t
  end.

Fixpoint ci_set (k : string) (v : V) (d : list (string * V)) : list (string * V) :=
  match d with
  | [] => [(k, v)]
  | (k', v') :: t =>
      if Py.lower k' =? Py.lower k then (k, v) :: t
      else (k', v') :: ci_set k v t
  end.

End CaseInsensitiveDict.

(** A prepared request.  A header may hold [None]: [handle_401] stores
    whatever [build_digest_header] returns. *)
Record PreparedRequest : Type := mkPreparedRequest {
  method : string;
  req_url : string;
  req_headers : list (string * option string);
  body : option string
}.

(** A response, with the history of the responses that led to it. *)
#[warnings="-register-all"]
Inductive Response : Type := mkResponse {
  status_code : Z;
  headers : list (string * string);
  url : string;
  history : list Response;
  request : PreparedRequest
}.

(** The redirect status codes of section 6. *)
Definition REDIRECT_STATI : list Z := [301; 302; 303; 307; 308]%Z.

(** Modelled from the spec: the [is_redirect] property of [Response]
    ([requests/models.py], not among the sources); section 4.4: "a response
    is a redirect only if its status is one of the standard redirect codes
    and it carries a Location header". *)
Definition is_redirect (resp : Response) : bool :=
  match ci_get "location" (headers resp) with
  | Some _ => existsb (Z.eqb (status_code resp)) REDIRECT_STATI
  | None => false
  end.

End Models.

(* ===================================================================== *)
(** ** sessions.py *)
(* ===================================================================== *)

Module Sessions.
Import Py Models.

(** Modelled from the spec: [to_key_val_list] of [requests/utils.py] (not
    among the sources); section 4.1 merges two mapping-typed settings "as
    ordinary mappings", so a mapping is read as its (key, value) items. *)
Definition to_key_val_list (v : value) : list (string * value) :=
  match v with
  | VDict items => items
  | _ => []
  end.

(** [merge_setting(request_setting, session_setting, dict_class=OrderedDict)] *)
Definition merge_setting (request_setting session_setting : value) : value :=
  if is_none session_setting then request_setting
  else if is_none request_setting then session_setting
  else if is_mapping session_setting && is_mapping request_setting then
    let merged_setting := dict_class (to_key_val_list session_setting) in
    VDict (od_update merged_setting (to_key_val_list request_setting))
  else request_setting.

(** [hooks is None or hooks.get('response') == []] *)
Definition hooks_unset (hooks : value) : outcome bool :=
  if is_none hooks then Return true
  else bind (py_get hooks "response") (fun r => Return (eq_empty_list r)).

(** [merge_hooks(request_hooks, session_hooks, dict_class=OrderedDict)] *)
Definition merge_hooks (request_hooks session_hooks : value) : outcome value :=
  bind (hooks_unset session_hooks) (fun s_unset =>
  if s_unset then Return request_hooks
  else
    bind (hooks_unset request_hooks) (fun r_unset =>
    if r_unset then Return session_hooks
    else Return (merge_setting request_hooks session_hooks))).

Section SessionRedirectMixin.

(** [urllib.parse.urlparse] and [urllib.parse.urljoin] *)
Variable urlparse : string -> Urllib.ParseResult.
Variable urljoin : string -> string -> string.

(** [a != b] on host names and ports, each possibly [None] *)
Definition opt_ne {A : Type} (eqb : A -> A -> bool) (a b : option A) : bool :=
  match a, b with
  | Some x, Some y => negb (eqb x y)
  | None, None => false
  | _, _ => true
  end.

(** [SessionRedirectMixin.get_redirect_target(resp)] *)
Definition get_redirect_target (resp : Response) : option string :=
  if is_redirect resp then
    match ci_get "location" (headers resp) with
    | Some location =>
        if negb (location =? "") then Some (urljoin (url resp) location)
        else None
    | None => None
    end
  else None.

(** [SessionRedirectMixin.should_strip_auth(old_url, new_url)] *)
Definition should_strip_auth (old_url new_url : string) : bool :=
  let old_parsed := urlparse old_url in
  let new_parsed := urlparse new_url in
  if opt_ne String.eqb (Urllib.hostname old_parsed) (Urllib.hostname new_parsed)
  then true
  else if (Urllib.scheme old_parsed =? "http")
          && (Urllib.scheme new_parsed =? "https")
  then false
  else opt_ne Z.eqb (Urllib.port old_parsed) (Urllib.port new_parsed).

(** [SessionRedirectMixin.rebuild_method(prepared_request, response)]: the
    body is [pass]; the request is left as it was and [None] is returned. *)
Definition rebuild_method (prepared_request : PreparedRequest)
    (response : Response) : PreparedRequest * value :=
  (prepared_request, VNone).

End SessionRedirectMixin.

End Sessions.

(* ===================================================================== *)
(** ** auth.py *)
(* ===================================================================== *)

Module Auth.
Import Py Models.

(** The per-thread state of an [HTTPDigestAuth] object
    ([self._thread_local]). *)
Record thread_local : Type := mkThreadLocal {
  last_nonce : string;
  nonce_count : N;
  chal : list (string * option string);
  pos : option Z;
  num_401_calls : Z
}.

(** The state [HTTPDigestAuth.__init__] sets up. *)
Definition init_state : thread_local :=
  {| last_nonce := ""; nonce_count := 0; chal := []; pos := None;
     num_401_calls := 1 |}.

Definition set_nonce_count (n : N) (tl : thread_local) : thread_local :=
  {| last_nonce := last_nonce tl; nonce_count := n; chal := chal tl;
     pos := pos tl; num_401_calls := num_401_calls tl |}.

Definition set_last_nonce (s : string) (tl : thread_local) : thread_local :=
  {| last_nonce := s; nonce_count := nonce_count tl; chal := chal tl;
     pos := pos tl; num_401_calls := num_401_calls tl |}.

Definition set_chal (c : list (string * option string)) (tl : thread_local)
  : thread_local :=
  {| last_nonce := last_nonce tl; nonce_count := nonce_count tl; chal := c;
     pos := pos tl; num_401_calls := num_401_calls tl |}.

Definition set_num_401_calls (n : Z) (tl : thread_local) : thread_local :=
  {| last_nonce := last_nonce tl; nonce_count := nonce_count tl;
     chal := chal tl; pos := pos tl; num_401_calls := n |}.

(** [chal.get(k)]: the parameter's value, [None] when the challenge has no
    such parameter (or gives it no value). *)
Definition chal_get (k : string) (c : list (string * option string))
  : option string :=
  match dict_get k c with
  | Some v => v
  | None => None
  end.

(** A local variable of a function body: unbound until an assignment is
    executed. *)
Inductive local (A : Type) : Type :=
| Unbound
| Bound (a : A).
Arguments Unbound {A}.
Arguments Bound {A} a.

(** Reading a local variable. *)
Definition read_local {A : Type} (name : string) (l : local A) : outcome A :=
  match l with
  | Bound a => Return a
  | Unbound => Raise (UnboundLocalError name)
  end.

(** What one call reads from the clock and the random source:
    [time.ctime()] and [os.urandom(8)]. *)
Record entropy : Type := mkEntropy {
  ctime : string;
  urandom8 : string
}.

(** [nonce == self._thread_local.last_nonce] *)
Definition nonce_is (nonce : option string) (last : string) : bool :=
  match nonce with
  | Some n => n =? last
  | None => false
  end.

(** [qop == 'auth' or 'auth' in qop.split(',')] *)
Definition qop_offers_auth (q : string) : bool :=
  (q =? "auth") || str_in "auth" (split "," q).

(** The algorithm names for which [build_digest_header] assigns
    [hash_utf8]; no [algorithm] parameter stands for MD5. *)
Definition algorithm_known (c : list (string * option string)) : bool :=
  match chal_get "algorithm" c with
  | None => true
  | Some a =>
      (upper a =? "MD5") || (upper a =? "MD5-SESS") || (upper a =? "SHA")
  end.

(** A challenge for which [build_digest_header] raises nothing: its
    algorithm is known and it carries a nonce. *)
Definition computable (c : list (string * option string)) : bool :=
  algorithm_known c &&
  match chal_get "nonce" c with
  | Some _ => true
  | None => false
  end.

(** A challenge that [build_digest_header] answers with a header: it is
    computable and its [qop], when present, offers [auth]. *)
Definition answerable (c : list (string * option string)) : bool :=
  computable c &&
  match chal_get "qop" c with
  | None => true
  | Some q => qop_offers_auth q
  end.

(** [s[n:]] *)
Fixpoint drop (n : nat) (s : string) : string :=
  match n, s with
  | O, _ => s
  | S n', String _ t => drop n' t
  | S _, "" => ""
  end.

(** [re.compile(pat, flags=re.IGNORECASE).sub('', s, count=1)] for a
    lower-case literal [pat]: the first match, in any case, is removed. *)
Fixpoint re_sub_first_ci (pat : string) (s : string) : string :=
  if String.prefix pat (lower s) then drop (String.length pat) s
  else match s with
       | "" => ""
       | String c t => String c (re_sub_first_ci pat t)
       end.

(** What a call of [handle_401] can change: the per-thread state, the
    position of the request's body stream, and the requests handed to the
    connection (kept as a log, newest last). *)
Record world : Type := mkWorld {
  tls : thread_local;
  body_position : Z;
  sent : list PreparedRequest
}.

(** Computations on the world that return or raise. *)
Definition M (A : Type) : Type := world -> outcome A * world.

Definition ret {A : Type} (a : A) : M A := fun w => (Return a, w).

Definition raise {A : Type} (e : exn) : M A := fun w => (Raise e, w).

Definition mbind {A B : Type} (m : M A) (f : A -> M B) : M B :=
  fun w =>
    match m w with
    | (Return a, w') => f a w'
    | (Raise e, w') => (Raise e, w')
    end.

Notation "x <- m ;; k" := (mbind m (fun x => k))
  (at level 61, m at next level, right associativity).
Notation "m ;;; k" := (mbind m (fun _ => k))
  (at level 61, right associativity).

Definition get_tls : M thread_local := fun w => (Return (tls w), w).

Definition modify_tls (f : thread_local -> thread_local) : M unit :=
  fun w => (Return tt,
            {| tls := f (tls w); body_position := body_position w;
               sent := sent w |}).

(** A method of the auth object, run on the per-thread state. *)
Definition on_tls {A : Type}
    (f : thread_local -> outcome A * thread_local) : M A :=
  fun w =>
    let (o, tl') := f (tls w) in
    (o, {| tls := tl'; body_position := body_position w; sent := sent w |}).

(** [r.request.body.seek(p)] *)
Definition seek (p : Z) : M unit :=
  fun w => (Return tt,
            {| tls := tls w; body_position := p; sent := sent w |}).

Section HTTPDigestAuth.

(** [hashlib.md5(x).hexdigest()] and [hashlib.sha1(x).hexdigest()] *)
Variable md5_hexdigest : string -> string.
Variable sha1_hexdigest : string -> string.
(** [urllib.parse.urlparse] *)
Variable urlparse : string -> Urllib.ParseResult.

(** [self.username], [self.password] *)
Variable username password : string.

(** The branches that assign the local [hash_utf8]; a bound value is a
    function or [None]. *)
Definition select_hash (_algorithm : string)
  : local (option (string -> string)) :=
  if (_algorithm =? "MD5") || (_algorithm =? "MD5-SESS")
  then Bound (Some md5_hexdigest)
  else if _algorithm =? "SHA" then Bound (Some sha1_hexdigest)
  else Unbound.

(** The [uri] of the digest: the path of the URL, ["/"] when empty, with the
    query when there is one. *)
Definition digest_path (url : string) : string :=
  let p_parsed := urlparse url in
  let path := if Urllib.path p_parsed =? "" then "/" else Urllib.path p_parsed in
  if negb (Urllib.query p_parsed =? "")
  then path ++ "?" ++ Urllib.query p_parsed
  else path.

(** The text of the header from [base = ...] on. *)
Definition digest_header_text (realm : option string) (nonce path respdig : string)
    (opaque algorithm entdig qop : option string) (ncvalue cnonce : string)
  : string :=
  let base :=
    "username=" ++ quoted username ++ ", realm=" ++ quoted (fmt_s realm)
      ++ ", nonce=" ++ quoted nonce ++ ", uri=" ++ quoted path
      ++ ", response=" ++ quoted respdig in
  let base :=
    if nonempty opaque then base ++ ", opaque=" ++ quoted (fmt_s opaque)
    else base in
  let base :=
    if nonempty algorithm
    then base ++ ", algorithm=" ++ quoted (fmt_s algorithm)
    else base in
  let base :=
    if nonempty entdig then base ++ ", digest=" ++ quoted (fmt_s entdig)
    else base in
  let base :=
    if nonempty qop
    then base ++ ", qop=" ++ quoted "auth" ++ ", nc=" ++ ncvalue
           ++ ", cnonce=" ++ quoted cnonce
    else base in
  "Digest " ++ base.

(** [HTTPDigestAuth.build_digest_header(method, url)]: the value returned
    ([None] or the header) or the exception raised, and the state left. *)
Definition build_digest_header (env : entropy) (method url : string)
    (tl : thread_local) : outcome (option string) * thread_local :=
  let realm := chal_get "realm" (chal tl) in
  let nonce := chal_get "nonce" (chal tl) in
  let qop := chal_get "qop" (chal tl) in
  let algorithm := chal_get "algorithm" (chal tl) in
  let opaque := chal_get "opaque" (chal tl) in
  let _algorithm :=
    match algorithm with
    | None => "MD5"
    | Some a => upper a
    end in
  let hash_utf8 := select_hash _algorithm in
  match read_local "hash_utf8" hash_utf8 with
  | Raise e => (Raise e, tl)
  | Return None => (Return None, tl)
  | Return (Some hash) =>
      let KD := fun s d => hash (s ++ ":" ++ d) in
      let entdig : option string := None in
      let path := digest_path url in
      let A1 := username ++ ":" ++ fmt_s realm ++ ":" ++ password in
      let A2 := method ++ ":" ++ path in
      let HA1 := hash A1 in
      let HA2 := hash A2 in
      let tl1 :=
        if nonce_is nonce (last_nonce tl)
        then set_nonce_count (nonce_count tl + 1) tl
        else set_nonce_count 1 tl in
      let ncvalue := fmt_08x (nonce_count tl1) in
      match nonce with
      | None => (Raise (AttributeError "encode"), tl1)
      | Some nonce =>
          let s := str_of_N (nonce_count tl1) ++ nonce
                     ++ ctime env ++ urandom8 env in
          let cnonce := take 16 (sha1_hexdigest s) in
          let HA1 :=
            if _algorithm =? "MD5-SESS"
            then hash (HA1 ++ ":" ++ nonce ++ ":" ++ cnonce)
            else HA1 in
          let respdig :=
            match qop with
            | None => Some (KD HA1 (nonce ++ ":" ++ HA2))
            | Some q =>
                if qop_offers_auth q then
                  let noncebit :=
                    nonce ++ ":" ++ ncvalue ++ ":" ++ cnonce ++ ":"
                      ++ "auth" ++ ":" ++ HA2 in
                  Some (KD HA1 noncebit)
                else None
            end in
          match respdig with
          | None => (Return None, tl1)
          | Some respdig =>
              let tl2 := set_last_nonce nonce tl1 in
              (Return (Some (digest_header_text realm nonce path respdig
                               opaque algorithm entdig qop ncvalue cnonce)),
               tl2)
          end
      end
  end.

(** One call in a sequence of calls on the same auth object: the challenge
    in force when it is made ([handle_401] stores it before calling), what
    the call reads from the clock and the random source, and its
    arguments. *)
Record digest_call : Type := mkDigestCall {
  call_chal : list (string * option string);
  call_env : entropy;
  call_method : string;
  call_url : string
}.

Definition run_call (c : digest_call) (tl : thread_local)
  : outcome (option string) * thread_local :=
  build_digest_header (call_env c) (call_method c) (call_url c)
    (set_chal (call_chal c) tl).

(** The state after a sequence of calls. *)
Definition run_calls (calls : list digest_call) (tl : thread_local)
  : thread_local :=
  fold_left (fun t c => snd (run_call c t)) calls tl.

(** [parse_dict_header] of [requests/utils.py] (not among the sources): the
    parameters of a challenge. *)
Variable parse_dict_header : string -> list (string * option string).
(** What [extract_cookies_to_jar] and [prepare_cookies] ([cookies.py],
    [models.py], not among the sources) make of the copied request, given
    the challenge response. *)
Variable prepare_cookies : PreparedRequest -> Response -> PreparedRequest.
(** [r.connection.send]: the adapter's [send], which returns a response or
    [None], or raises. *)
Variable connection_send : PreparedRequest -> outcome (option Response).

Definition send_on_connection (prep : PreparedRequest)
  : M (option Response) :=
  fun w =>
    (connection_send prep,
     {| tls := tls w; body_position := body_position w;
        sent := (sent w ++ [prep])%list |}).

(** [prep.headers['Authorization'] = v] *)
Definition set_authorization (v : option string) (prep : PreparedRequest)
  : PreparedRequest :=
  {| method := method prep; req_url := req_url prep;
     req_headers := ci_set "Authorization" v (req_headers prep);
     body := body prep |}.

(** [_r.history.append(r); _r.request = prep] *)
Definition attach (r : Response) (prep : PreparedRequest) (_r : Response)
  : Response :=
  {| status_code := status_code _r; headers := headers _r; url := url _r;
     history := (history _r ++ [r])%list; request := prep |}.

(** [HTTPDigestAuth.handle_401(r, **kwargs)].  Reading and closing the
    challenge response ([r.content], [r.close()]) touches none of the values
    kept here; [prep] is the copy of [r.request] after the cookie helpers. *)
Definition handle_401 (env : entropy) (r : Response) : M Response :=
  if negb ((400 <=? status_code r)%Z && (status_code r <? 500)%Z) then
    modify_tls (set_num_401_calls 1) ;;;
    ret r
  else
    tl <- get_tls ;;
    match pos tl with
    | Some p => seek p
    | None => ret tt
    end ;;;
    let s_auth :=
      match ci_get "www-authenticate" (headers r) with
      | Some v => v
      | None => ""
      end in
    if contains "digest" (lower s_auth) && (num_401_calls tl <? 2)%Z then
      modify_tls (fun t => set_num_401_calls (num_401_calls t + 1) t) ;;;
      modify_tls (set_chal (parse_dict_header
                              (re_sub_first_ci "digest " s_auth))) ;;;
      let prep := prepare_cookies (request r) r in
      h <- on_tls (build_digest_header env (method prep) (req_url prep)) ;;
      let prep := set_authorization h prep in
      _r <- send_on_connection prep ;;
      match _r with
      | None => raise (AttributeError "history")
      | Some _r => ret (attach r prep _r)
      end
    else
      modify_tls (set_num_401_calls 1) ;;;
      ret r.

End HTTPDigestAuth.

End Auth.

(* ===================================================================== *)
(** ** adapters.py *)
(* ===================================================================== *)

Module Adapters.
Import Py Models.

(** What the sources read of a urllib3 response. *)
Record RawResponse : Type := mkRawResponse {
  raw_status : Z;
  raw_headers : list (string * string);
  raw_reason : string
}.

Module BaseAdapter.

Section Send.

(** A urllib3 connection pool. *)
Variable connection : Type.
(** [self.get_connection(url, proxies)], resolved on the object at hand. *)
Variable get_connection : string -> value -> outcome connection.
(** [conn.urlopen(...)]: the exchange itself; its arguments are the request
    (method, url, body, headers), [preload_content] and [timeout]. *)
Variable urlopen :
  connection -> PreparedRequest -> bool -> value -> outcome RawResponse.

(** The exceptions the [except (ProtocolError, socket.error)] clause
    catches: instances of urllib3's [ProtocolError], of [socket.error], which
    is [OSError], and of their subclasses.  The exceptions of the package
    derive from [IOError], that is [OSError], so a [ConnectionError] raised
    inside the block is caught as well. *)
Definition caught (e : exn) : bool :=
  match e with
  | ProtocolError _ => true
  | _ => is_OSError e
  end.

(** The body of the [try] block.  Of the response it builds, the status,
    the headers, the URL and the request are kept; the encoding, the reason
    and the cookie jar are not modelled. *)
Definition send_body (request : PreparedRequest) (stream : bool)
    (timeout proxies : value) : outcome (option Response) :=
  bind (get_connection (req_url request) proxies) (fun conn =>
  bind (urlopen conn request (negb stream) timeout) (fun resp =>
  Return (Some {| status_code := raw_status resp;
                  headers := raw_headers resp;
                  url := req_url request;
                  history := [];
                  request := request |}))).

(** [BaseAdapter.send(request, stream, timeout, verify, cert, proxies)] *)
Definition send (request : PreparedRequest) (stream : bool)
    (timeout verify cert proxies : value) : outcome (option Response) :=
  match send_body request stream timeout proxies with
  | Raise err => if caught err then Raise (ConnectionError err) else Raise err
  | Return response => Return response
  end.

End Send.

End BaseAdapter.

Module HTTPAdapter.

Section PoolKey.

(** [urllib.parse.urlparse] and [os.path.isdir] *)
Variable urlparse : string -> Urllib.ParseResult.
Variable isdir : string -> bool.
Definition opt_str (o : option string) : value :=
  match o with
  | Some s => VStr s
  | None => VNone
  end.

(** The [ssl_params] dictionary after the [verify] branches. *)
Definition ssl_params_verify (verify : value) : list (string * value) :=
  match verify with
  | VBool b =>
      od_insert "cert_reqs"
        (VStr (if b then "CERT_REQUIRED" else "CERT_NONE")) []
  | VStr p =>
      if isdir p then od_insert "ca_certs_dir" (VStr p) []
      else od_insert "ca_certs" (VStr p) []
  | _ => []
  end.

(** The [if cert:] block. *)
Definition ssl_params_cert (cert : value) (ssl_params : list (string * value))
  : list (string * value) :=
  if truthy cert then
    match cert with
    | VStr _ => od_insert "cert_file" cert ssl_params
    | VTuple [c; k] =>
        od_insert "key_file" k (od_insert "cert_file" c ssl_params)
    | _ => ssl_params
    end
  else ssl_params.

(** [HTTPAdapter.build_connection_pool_key_attributes(request, verify, cert)]:
    the host parameters and the TLS parameters of the pool key.  When the
    URL names no port the method evaluates [DEFAULT_PORTS.get(...)], and
    [adapters.py] neither imports nor defines [DEFAULT_PORTS]: the lookup of
    the name raises [NameError] before the TLS parameters are built. *)
Definition build_connection_pool_key_attributes (request : PreparedRequest)
    (verify cert : value)
  : outcome (list (string * value) * list (string * value)) :=
  let parsed := urlparse (req_url request) in
  let host := Urllib.hostname parsed in
  match Urllib.port parsed with
  | None => Raise (OtherError "NameError")
  | Some port =>
      let host_params :=
        [("scheme", VStr (Urllib.scheme parsed)); ("host", opt_str host);
         ("port", VInt port)] in
      Return (host_params, ssl_params_cert cert (ssl_params_verify verify))
  end.

End PoolKey.

(** [HTTPAdapter.send(request, stream, timeout, verify, cert, proxies)]: the
    body is [pass]; nothing is sent and [None] is returned. *)
Definition send (request : PreparedRequest) (stream : bool)
    (timeout verify cert proxies : value) : outcome (option Response) :=
  Return None.

End HTTPAdapter.

End Adapters.

(* ===================================================================== *)
(** ** Stand-ins for evaluating at concrete inputs *)
(* ===================================================================== *)

Module Sample.
Import Py Models.

(** Stand-ins for the two hash functions: they tag their argument. *)
Definition md5 (x : string) : string := "md5<" ++ x ++ ">".
Definition sha1 (x : string) : string := "sha1<" ++ x ++ ">".

Definition env : Auth.entropy :=
  {| Auth.ctime := "Thu Jan  1 00:00:00 1970";
     Auth.urandom8 := "01234567" |}.

(** A challenge parser for headers of the two shapes used below. *)
Definition parse_dict_header (s : string) : list (string * option string) :=
  if contains "SHA-256" s
  then [("realm", Some "r"); ("nonce", Some "abc");
        ("algorithm", Some "SHA-256")]
  else [("realm", Some "r"); ("nonce", Some "abc"); ("qop", Some "auth")].

Definition prepare_cookies (prep : PreparedRequest) (r : Response)
  : PreparedRequest := prep.

Definition get_a : PreparedRequest :=
  {| method := "GET"; req_url := "http://example.com/a";
     req_headers := []; body := None |}.

(** The same request for a URL that names its port. *)
Definition get_8443 : PreparedRequest :=
  {| method := "GET"; req_url := "https://example.com:8443/a";
     req_headers := []; body := None |}.

Definition challenge (status : Z) (www_authenticate : string) : Response :=
  {| status_code := status;
     headers := [("WWW-Authenticate", www_authenticate)];
     url := "http://example.com/a"; history := []; request := get_a |}.

Definition ok_response (prep : PreparedRequest) : Response :=
  {| status_code := 200; headers := []; url := req_url prep;
     history := []; request := prep |}.

(** A connection that answers every request with a 200. *)
Definition connection_send (prep : PreparedRequest)
  : outcome (option Response) :=
  Return (Some (ok_response prep)).

Definition fresh : Auth.world :=
  {| Auth.tls := Auth.init_state; Auth.body_position := 0;
     Auth.sent := [] |}.

(** A call on a challenge with the given nonce and, when given, [qop]. *)
Definition call (nonce : string) (qop : option string) : Auth.digest_call :=
  {| Auth.call_chal :=
       ([("realm", Some "r"); ("nonce", Some nonce)]
          ++ match qop with
             | Some q => [("qop", Some q)]
             | None => []
             end)%list;
     Auth.call_env := env;
     Auth.call_method := "GET";
     Auth.call_url := "http://example.com/a" |}.

(** The state of a fresh auth object that holds a SHA-256 challenge. *)
Definition sha256_state : Auth.thread_local :=
  Auth.set_chal
    [("realm", Some "r"); ("nonce", Some "abc");
     ("algorithm", Some "SHA-256")]
    Auth.init_state.

End Sample.

(* ===================================================================== *)
(** ** hooks.py *)
(* ===================================================================== *)

Module Hooks.
Import Py.

(** [HOOKS] *)
Definition HOOKS : list string := ["response"].

(** [hasattr(v, '__call__')] *)
Definition is_callable (v : value) : bool :=
  match v with VCallable _ => true | _ => false end.

(** [key in hooks], which raises [TypeError] on a value that is no
    container. *)
Definition py_in (key : string) (hooks : value) : outcome bool :=
  match hooks with
  | VDict d =>
      Return (match dict_get key d with Some _ => true | None => false end)
  | VList l | VTuple l =>
      Return (existsb (fun v => match v with
                                | VStr s => s =? key
                                | _ => false
                                end) l)
  | VStr s => Return (contains key s)
  | _ => Raise (OtherError "TypeError")
  end.

(** The values a [for] loop over [v] visits. *)
Definition iterate (v : value) : outcome (list value) :=
  match v with
  | VList l | VTuple l => Return l
  | VStr s =>
      Return (map (fun c => VStr (String c "")) (list_ascii_of_string s))
  | VDict d => Return (map (fun kv => VStr (fst kv)) d)
  | _ => Raise (OtherError "TypeError")
  end.

Section Dispatch.

(** The type of [hook_data], and what calling a callable on it gives: a
    value, [None], or an exception. *)
Variable data : Type.
Variable call : nat -> data -> outcome (option data).

(** One turn of the loop: [_hook_data = hook(hook_data, **kwargs)], kept
    when it is not [None]. *)
Definition apply_hook (hook : value) (hook_data : data) : outcome data :=
  match hook with
  | VCallable id =>
      bind (call id hook_data) (fun _hook_data =>
      Return match _hook_data with
             | Some d => d
             | None => hook_data
             end)
  | _ => Raise (OtherError "TypeError")
  end.

Fixpoint run_hooks (hooks : list value) (hook_data : data) : outcome data :=
  match hooks with
  | [] => Return hook_data
  | hook :: rest => bind (apply_hook hook hook_data) (run_hooks rest)
  end.

(** [dispatch_hook(key, hooks, hook_data, **kwargs)]: what is returned or
    raised, and the caller's [hooks] object afterwards (a single callable
    under [key] is replaced by a one-element list). *)
Definition dispatch_hook (key : string) (hooks : value) (hook_data : data)
  : outcome data * value :=
  if truthy hooks then
    match py_in key hooks with
    | Raise e => (Raise e, hooks)
    | Return false => (Return hook_data, hooks)
    | Return true =>
        match hooks with
        | VDict d =>
            match dict_get key d with
            | Some v =>
                let v' := if is_callable v then VList [v] else v in
                let d' := if is_callable v then od_insert key v' d else d in
                (bind (iterate v') (fun l => run_hooks l hook_data),
                 VDict d')
            | None => (Raise (OtherError "KeyError"), hooks)
            end
        | _ => (Raise (OtherError "TypeError"), hooks)
        end
    end
  else (Return hook_data, hooks).

End Dispatch.

End Hooks.

(* ===================================================================== *)
(** ** _internal_utils.py *)
(* ===================================================================== *)

Module InternalUtils.
Import Py.

(** The arguments [to_native_string] tells apart: a [str] (its code
    points), a [bytes] (its bytes), or another object (what [str(obj)]
    gives). *)
Inductive text_like : Type :=
| TStr (code_points : list N)
| TBytes (bytes : list N)
| TOther (str_of : list N).

(** [bytes.decode('ascii')]: every byte below 128 is its own code point;
    any other byte is a [UnicodeDecodeError]. *)
Fixpoint ascii_decode (bytes : list N) : outcome (list N) :=
  match bytes with
  | [] => Return []
  | b :: t =>
      if (b <? 128)%N then bind (ascii_decode t) (fun r => Return (b :: r))
      else Raise (OtherError "UnicodeDecodeError")
  end.

Section ToNativeString.

(** [bytes.decode(encoding)] for the encodings other than ['ascii']. *)
Variable decode : String.string -> list N -> outcome (list N).

(** [to_native_string(string, encoding='ascii')] *)
Definition to_native_string (string : text_like) (encoding : String.string)
  : outcome (list N) :=
  match string with
  | TStr s => Return s
  | TBytes b =>
      if encoding =? "ascii" then ascii_decode b else decode encoding b
  | TOther s => Return s
  end.

End ToNativeString.

(** [unicode_is_ascii(u_string)] *)
Definition unicode_is_ascii (u_string : list N) : bool :=
  forallb (fun char => (char <? 128)%N) u_string.

End InternalUtils.

(* ===================================================================== *)
(** ** auth.py: basic and proxy authentication, redirects *)
(* ===================================================================== *)

Module AuthBasic.
Import Py Models.

(** The classes of auth.py, and any other class. *)
Inductive class : Type :=
| HTTPBasicAuth
| HTTPProxyAuth
| HTTPDigestAuth
| OtherClass.

(** An object as [__eq__] sees it: its class and its [username] and
    [password] attributes, each a string, or [None] when the attribute is
    [None] or missing ([getattr(other, name, None)]). *)
Record object : Type := mkObject {
  class_of : class;
  username : option string;
  password : option string
}.

(** [isinstance(other, HTTPBasicAuth)]; [HTTPProxyAuth] derives from it. *)
Definition isinstance_basic (other : object) : bool :=
  match class_of other with
  | HTTPBasicAuth | HTTPProxyAuth => true
  | _ => false
  end.

(** [isinstance(other, HTTPDigestAuth)] *)
Definition isinstance_digest (other : object) : bool :=
  match class_of other with
  | HTTPDigestAuth => true
  | _ => false
  end.

(** [a == b] for two attribute values. *)
Definition attr_eq (a b : option string) : bool :=
  match a, b with
  | Some s, Some t => s =? t
  | None, None => true
  | _, _ => false
  end.

(** [HTTPBasicAuth.__eq__(self, other)] and [__ne__] *)
Definition basic_eq (self other : object) : bool :=
  forallb (fun b => b)
    [isinstance_basic other;
     attr_eq (username self) (username other);
     attr_eq (password self) (password other)].

Definition basic_ne (self other : object) : bool := negb (basic_eq self other).

(** [HTTPDigestAuth.__eq__(self, other)] and [__ne__] *)
Definition digest_eq (self other : object) : bool :=
  forallb (fun b => b)
    [isinstance_digest other;
     attr_eq (username self) (username other);
     attr_eq (password self) (password other)].

Definition digest_ne (self other : object) : bool :=
  negb (digest_eq self other).

Section BasicAuth.

(** [base64.b64encode] *)
Variable b64encode : string -> string.

(** [_basic_auth_str(username, password)] *)
Definition _basic_auth_str (username password : string) : string :=
  let auth := username ++ ":" ++ password in
  "Basic " ++ b64encode auth.

Definition set_header (name : string) (v : string) (r : PreparedRequest)
  : PreparedRequest :=
  {| method := method r; req_url := req_url r;
     req_headers := ci_set name (Some v) (req_headers r);
     body := body r |}.

(** [HTTPBasicAuth.__call__(r)] for an object holding the two strings *)
Definition basic_call (username password : string) (r : PreparedRequest)
  : PreparedRequest :=
  set_header "Authorization" (_basic_auth_str username password) r.

(** [HTTPProxyAuth.__call__(r)] *)
Definition proxy_call (username password : string) (r : PreparedRequest)
  : PreparedRequest :=
  set_header "Proxy-Authorization" (_basic_auth_str username password) r.

End BasicAuth.

(** [HTTPDigestAuth.handle_redirect(r, **kwargs)] *)
Definition handle_redirect (r : Response) : Auth.M unit :=
  if is_redirect r then Auth.modify_tls (Auth.set_num_401_calls 1)
  else Auth.ret tt.

End AuthBasic.

(* ===================================================================== *)
(** ** sessions.py: pickling a session *)
(* ===================================================================== *)

Module SessionState.
Import Py.

(** [Session.__attrs__] *)
Definition __attrs__ : list string :=
  ["headers"; "cookies"; "auth"; "proxies"; "hooks"; "params"; "verify";
   "cert"; "adapters"; "stream"; "trust_env"; "max_redirects"].

(** [getattr(self, attr, None)] on an object kept as its attributes. *)
Definition getattr (self : list (string * value)) (attr : string) : value :=
  match dict_get attr self with
  | Some v => v
  | None => VNone
  end.

(** [Session.__getstate__()] *)
Definition __getstate__ (self : list (string * value))
  : list (string * value) :=
  dict_class (map (fun attr => (attr, getattr self attr)) __attrs__).

(** [Session.__setstate__(state)]: the object afterwards. *)
Definition __setstate__ (self state : list (string * value))
  : list (string * value) :=
  fold_left (fun obj kv => od_insert (fst kv) (snd kv) obj) state self.

End SessionState.

(* ===================================================================== *)
(** ** adapters.py: TLS settings, proxies and pooled connections *)
(* ===================================================================== *)

Module AdapterPools.
Import Py Models.

(** The TLS attributes of a urllib3 connection pool that the adapter
    assigns. *)
Record tls_fields : Type := mkTls {
  cert_reqs : value;
  ca_certs : value;
  ca_cert_dir : value;
  cert_file : value;
  key_file : value
}.

(** [v[i]] for a position [i] *)
Definition subscript (v : value) (i : nat) : outcome value :=
  match v with
  | VList l | VTuple l =>
      match nth_error l i with
      | Some x => Return x
      | None => Raise (OtherError "IndexError")
      end
  | VStr s =>
      match String.get i s with
      | Some c => Return (VStr (String c ""))
      | None => Raise (OtherError "IndexError")
      end
  | VDict _ => Raise (OtherError "KeyError")
  | _ => Raise (OtherError "TypeError")
  end.

(** [d.get(k)] and [d.get(k, default)] on a dict of values *)
Definition get_or (k : string) (default : value) (d : list (string * value))
  : value :=
  match dict_get k d with
  | Some v => v
  | None => default
  end.

Section CertVerify.

(** [DEFAULT_CA_BUNDLE_PATH] of [requests/utils.py] (not among the
    sources) *)
Variable DEFAULT_CA_BUNDLE_PATH : string.

(** [HTTPAdapter.cert_verify(conn, url, verify, cert)]: whether it returns
    or raises, and the attributes of [conn] afterwards. *)
Definition cert_verify (conn : tls_fields) (url : string)
    (verify cert : value) : outcome unit * tls_fields :=
  let conn :=
    match verify with
    | VStr _ =>
        {| cert_reqs := VStr "CERT_REQUIRED"; ca_certs := verify;
           ca_cert_dir := ca_cert_dir conn; cert_file := cert_file conn;
           key_file := key_file conn |}
    | VBool false =>
        {| cert_reqs := VStr "CERT_NONE"; ca_certs := VNone;
           ca_cert_dir := ca_cert_dir conn; cert_file := cert_file conn;
           key_file := key_file conn |}
    | _ =>
        {| cert_reqs := VStr "CERT_REQUIRED";
           ca_certs := VStr DEFAULT_CA_BUNDLE_PATH;
           ca_cert_dir := ca_cert_dir conn; cert_file := cert_file conn;
           key_file := key_file conn |}
    end in
  if truthy cert then
    match cert with
    | VStr _ =>
        (Return tt,
         {| cert_reqs := cert_reqs conn; ca_certs := ca_certs conn;
            ca_cert_dir := ca_cert_dir conn; cert_file := cert;
            key_file := key_file conn |})
    | _ =>
        match subscript cert 0 with
        | Raise e => (Raise e, conn)
        | Return c0 =>
            let conn :=
              {| cert_reqs := cert_reqs conn; ca_certs := ca_certs conn;
                 ca_cert_dir := ca_cert_dir conn; cert_file := c0;
                 key_file := key_file conn |} in
            match subscript cert 1 with
            | Raise e => (Raise e, conn)
            | Return c1 =>
                (Return tt,
                 {| cert_reqs := cert_reqs conn; ca_certs := ca_certs conn;
                    ca_cert_dir := ca_cert_dir conn;
                    cert_file := cert_file conn; key_file := c1 |})
            end
        end
    end
  else (Return tt, conn).

End CertVerify.

Section Pools.

(** [urllib.parse.urlparse], [os.path.isdir], [base64.b64encode] *)
Variable urlparse : string -> Urllib.ParseResult.
Variable isdir : string -> bool.
Variable b64encode : string -> string.
(** [get_auth_from_url] and [select_proxy] of [requests/utils.py] (not
    among the sources): the user name and the password in a URL (empty
    strings when absent), and the proxy URL chosen for a URL ([None] when
    there is none). *)
Variable get_auth_from_url : string -> string * string.
Variable select_proxy : string -> value -> option string.
(** urllib3: a proxy manager, [proxy_from_url(proxy, **kwargs)], the
    preloaded TLS context, and [connection_from_url(url)] of the adapter's
    pool manager and of a proxy manager, which give a pooled connection
    (named by a number). *)
Variable manager : Type.
Variable proxy_from_url : string -> list (string * value) -> outcome manager.
Variable _preloaded_ssl_context : value.
Variable pool_connection_from_url : string -> outcome nat.
Variable manager_connection_from_url : manager -> string -> outcome nat.
(** The [path_url] property of a prepared request ([models.py], not among
    the sources). *)
Variable path_url : PreparedRequest -> string.

(** The adapter and the connections of its pools: the cache
    [self.proxy_manager], [self.config], the calls made to
    [proxy_from_url] (oldest first), and the TLS attributes of each pooled
    connection. *)
Record adapter : Type := mkAdapter {
  proxy_manager : list (string * manager);
  config : list (string * value);
  created : list (string * list (string * value));
  connections : nat -> tls_fields
}.

(** [HTTPAdapter.proxy_headers(proxy)] *)
Definition proxy_headers (proxy : string) : list (string * value) :=
  let headers : list (string * value) := [] in
  let (username, password) := get_auth_from_url proxy in
  if negb (username =? "") && negb (password =? "")
  then od_insert "Proxy-Authorization"
         (VStr (AuthBasic._basic_auth_str b64encode username password))
         headers
  else headers.

(** [HTTPAdapter.proxy_manager_for(proxy, **proxy_kwargs)] *)
Definition proxy_manager_for (proxy : string)
    (proxy_kwargs : list (string * value)) (a : adapter)
  : outcome manager * adapter :=
  match dict_get proxy (proxy_manager a) with
  | Some m => (Return m, a)
  | None =>
      let headers := proxy_headers proxy in
      let proxy_kwargs :=
        if truthy (VDict headers)
        then od_insert "proxy_headers" (VDict headers) proxy_kwargs
        else proxy_kwargs in
      let proxy_kwargs :=
        if truthy (get_or "trust_env" (VBool true) (config a))
        then od_insert "proxy_ssl_context" _preloaded_ssl_context proxy_kwargs
        else proxy_kwargs in
      let a' :=
        {| proxy_manager := proxy_manager a; config := config a;
           created := (created a ++ [(proxy, proxy_kwargs)])%list;
           connections := connections a |} in
      match proxy_from_url proxy proxy_kwargs with
      | Raise e => (Raise e, a')
      | Return m =>
          (Return m,
           {| proxy_manager := od_insert proxy m (proxy_manager a');
              config := config a'; created := created a';
              connections := connections a' |})
      end
  end.

(** The pool a URL goes through: a proxy manager when [select_proxy] gives
    a (non-empty) proxy, the adapter's pool manager otherwise. *)
Definition connection_for (url : string) (proxies : value) (a : adapter)
  : outcome nat * adapter :=
  match select_proxy url proxies with
  | Some proxy =>
      if negb (proxy =? "") then
        match proxy_manager_for proxy [] a with
        | (Return m, a') => (manager_connection_from_url m url, a')
        | (Raise e, a') => (Raise e, a')
        end
      else (pool_connection_from_url url, a)
  | None => (pool_connection_from_url url, a)
  end.

(** The attributes [get_connection_with_tls_context] gives a connection. *)
Definition tls_of_params (ssl_params : list (string * value)) : tls_fields :=
  {| cert_reqs := get_or "cert_reqs" (VStr "CERT_REQUIRED") ssl_params;
     ca_certs := get_or "ca_certs" VNone ssl_params;
     ca_cert_dir := get_or "ca_certs_dir" VNone ssl_params;
     cert_file := get_or "cert_file" VNone ssl_params;
     key_file := get_or "key_file" VNone ssl_params |}.

(** [HTTPAdapter.get_connection_with_tls_context(request, verify, proxies,
    cert)].  The pool key is built first: when that raises, no proxy is
    selected and no pool is touched. *)
Definition get_connection_with_tls_context (request : PreparedRequest)
    (verify proxies cert : value) (a : adapter) : outcome nat * adapter :=
  match Adapters.HTTPAdapter.build_connection_pool_key_attributes
          urlparse isdir request verify cert with
  | Raise e => (Raise e, a)
  | Return (host_params, ssl_params) =>
      match connection_for (req_url request) proxies a with
      | (Return conn, a') =>
          (Return conn,
           {| proxy_manager := proxy_manager a'; config := config a';
              created := created a';
              connections :=
                fun c => if Nat.eqb c conn then tls_of_params ssl_params
                         else connections a' c |})
      | (Raise e, a') => (Raise e, a')
      end
  end.

(** [HTTPAdapter.get_connection(url, proxies)]; the deprecation warning it
    issues is not modelled. *)
Definition get_connection (url : string) (proxies : value) (a : adapter)
  : outcome nat * adapter :=
  connection_for url proxies a.

(** [HTTPAdapter.request_url(request, proxies)] *)
Definition request_url (request : PreparedRequest) (proxies : value)
  : string :=
  let proxy := select_proxy (req_url request) proxies in
  let scheme := Urllib.scheme (urlparse (req_url request)) in
  if nonempty proxy && negb (scheme =? "https")
  then req_url request
  else path_url request.

End Pools.

End AdapterPools.

(* ===================================================================== *)
(** ** Properties *)
(* ===================================================================== *)

Import Py Models.

(** *** Ordered dictionaries *)

Section DictFacts.
Context {V : Type}.

Lemma dict_get_od_insert (k k' : string) (v : V) (d : list (string * V)) :
  dict_get k (od_insert k' v d) = if k' =? k then Some v else dict_get k d.
Proof.
  induction d as [|[k0 v0] t IH]; simpl.
  - reflexivity.
  - destruct (k0 =? k') eqn:E0; simpl.
    + apply String.eqb_eq in E0; subst k0.
      destruct (k' =? k); reflexivity.
    + destruct (k0 =? k) eqn:E1.
      * apply String.eqb_eq in E1; subst k0.
        rewrite String.eqb_sym in E0. now rewrite E0.
      * exact IH.
Qed.

Lemma dict_get_od_update (k : string) (items d : list (string * V)) :
  dict_get k (od_update d items) =
  match items_get k items with
  | Some w => Some w
  | None => dict_get k d
  end.
Proof.
  unfold od_update. revert d.
  induction items as [|[k0 v0] t IH]; intros d; simpl.
  - reflexivity.
  - rewrite IH. destruct (items_get k t); [reflexivity|].
    rewrite dict_get_od_insert. simpl. destruct (k0 =? k); reflexivity.
Qed.

Lemma dict_get_dict_class (k : string) (items : list (string * V)) :
  dict_get k (dict_class items) = items_get k items.
Proof.
  unfold dict_class. rewrite dict_get_od_update.
  destruct (items_get k items); reflexivity.
Qed.

Lemma items_get_none (k : string) (items : list (string * V)) :
  ~ In k (map fst items) -> items_get k items = None.
Proof.
  induction items as [|[k0 v0] t IH]; simpl; intros H.
  - reflexivity.
  - rewrite IH by tauto.
    destruct (k0 =? k) eqn:E; [|reflexivity].
    apply String.eqb_eq in E. tauto.
Qed.

(** On the items of a dict (no key twice) the two lookups agree. *)
Lemma items_get_nodup (k : string) (items : list (string * V)) :
  NoDup (map fst items) -> items_get k items = dict_get k items.
Proof.
  induction items as [|[k0 v0] t IH]; simpl; intros H.
  - reflexivity.
  - inversion H as [|? ? Hn Hd]; subst.
    destruct (k0 =? k) eqn:E.
    + apply String.eqb_eq in E; subst k0.
      now rewrite items_get_none.
    + rewrite IH by assumption. destruct (dict_get k t); reflexivity.
Qed.

Lemma keys_od_insert (k : string) (v : V) (d : list (string * V)) :
  exists extra, map fst (od_insert k v d) = (map fst d ++ extra)%list.
Proof.
  induction d as [|[k0 v0] t [extra IH]]; simpl.
  - now exists [k].
  - destruct (k0 =? k); simpl.
    + exists []. now rewrite app_nil_r.
    + exists extra. now rewrite IH.
Qed.

Lemma keys_od_update (items d : list (string * V)) :
  exists extra, map fst (od_update d items) = (map fst d ++ extra)%list.
Proof.
  unfold od_update. revert d.
  induction items as [|[k0 v0] t IH]; intros d; simpl.
  - exists []. now rewrite app_nil_r.
  - destruct (IH (od_insert k0 v0 d)) as [e1 H1].
    destruct (keys_od_insert k0 v0 d) as [e2 H2].
    exists (e2 ++ e1)%list. now rewrite H1, H2, app_assoc.
Qed.

End DictFacts.

(** *** sessions.py: merging settings and hooks *)

Section MergeFacts.
Import Sessions.

(** C6: [merge_setting] returns the other setting when one of the two is
    [None]; two mappings are merged into an ordered dict built on the
    session's items (its keys come first), in which a key has the per-call
    value when the per-call mapping binds it and the session's value
    otherwise; in every other case the per-call value is returned. *)
Theorem merge_setting_spec (request_setting session_setting : value) :
  merge_setting request_setting VNone = request_setting /\
  merge_setting VNone session_setting = session_setting /\
  (forall req sess : list (string * value),
      exists merged,
        merge_setting (VDict req) (VDict sess) = VDict merged /\
        (forall k,
            dict_get k merged =
            match dict_get k (dict_class req) with
            | Some v => Some v
            | None => dict_get k (dict_class sess)
            end) /\
        (NoDup (map fst req) -> NoDup (map fst sess) ->
         forall k,
           dict_get k merged =
           match dict_get k req with
           | Some v => Some v
           | None => dict_get k sess
           end) /\
        exists extra,
          map fst merged = (map fst (dict_class sess) ++ extra)%list) /\
  (is_none request_setting = false ->
   is_none session_setting = false ->
   is_mapping request_setting && is_mapping session_setting = false ->
   merge_setting request_setting session_setting = request_setting).
Proof.
  repeat split.
  - unfold merge_setting.
    destruct session_setting; reflexivity.
  - intros req sess.
    exists (od_update (dict_class sess) req).
    split; [reflexivity|].
    assert (L : forall k,
               dict_get k (od_update (dict_class sess) req) =
               match items_get k req with
               | Some v => Some v
               | None => items_get k sess
               end).
    { intros k. rewrite dict_get_od_update, dict_get_dict_class.
      reflexivity. }
    split; [|split].
    + intros k. rewrite L, !dict_get_dict_class. reflexivity.
    + intros Hr Hs k. rewrite L.
      rewrite (items_get_nodup k req Hr), (items_get_nodup k sess Hs).
      reflexivity.
    + apply keys_od_update.
  - intros Hr Hs Hm. unfold merge_setting.
    rewrite Hs, Hr. rewrite andb_comm in Hm. now rewrite Hm.
Qed.

(** C5: [merge_hooks] returns the per-call hooks when the session hooks are
    [None] or bind ['response'] to an empty list; failing that, it returns
    the session hooks when the per-call hooks are [None] or bind
    ['response'] to an empty list; failing both, it returns what
    [merge_setting] makes of the two mappings: an ordered dict built on the
    session's items (its keys come first), in which an event has the
    per-call hooks when the per-call mapping binds it and the session's
    hooks otherwise.  Hence per-call hooks with an empty ['response'] list
    leave the session's ['response'] hooks in the result. *)
Theorem merge_hooks_spec :
  (forall request_hooks, merge_hooks request_hooks VNone = Return request_hooks) /\
  (forall request_hooks sess,
      dict_get "response" sess = Some (VList []) ->
      merge_hooks request_hooks (VDict sess) = Return request_hooks) /\
  (forall sess v,
      py_get (VDict sess) "response" = Return v ->
      eq_empty_list v = false ->
      merge_hooks VNone (VDict sess) = Return (VDict sess)) /\
  (forall req sess v,
      py_get (VDict sess) "response" = Return v ->
      eq_empty_list v = false ->
      dict_get "response" req = Some (VList []) ->
      merge_hooks (VDict req) (VDict sess) = Return (VDict sess)) /\
  (forall req sess v w,
      py_get (VDict sess) "response" = Return v ->
      eq_empty_list v = false ->
      py_get (VDict req) "response" = Return w ->
      eq_empty_list w = false ->
      merge_hooks (VDict req) (VDict sess) =
      Return (merge_setting (VDict req) (VDict sess)) /\
      exists merged,
        merge_hooks (VDict req) (VDict sess) = Return (VDict merged) /\
        (forall k,
            dict_get k merged =
            match dict_get k (dict_class req) with
            | Some x => Some x
            | None => dict_get k (dict_class sess)
            end) /\
        (NoDup (map fst req) -> NoDup (map fst sess) ->
         forall k,
           dict_get k merged =
           match dict_get k req with
           | Some x => Some x
           | None => dict_get k sess
           end) /\
        exists extra,
          map fst merged = (map fst (dict_class sess) ++ extra)%list) /\
  (forall req sess,
      dict_get "response" req = Some (VList []) ->
      exists result,
        merge_hooks (VDict req) (VDict sess) = Return result /\
        py_get result "response" = py_get (VDict sess) "response").
Proof.
  unfold merge_hooks, hooks_unset, py_get; simpl.
  split; [|split; [|split; [|split; [|split]]]].
  - reflexivity.
  - intros request_hooks sess H. now rewrite H.
  - intros sess v H E. injection H as H. rewrite H, E. reflexivity.
  - intros req sess v H E R. injection H as H. rewrite H, E, R. reflexivity.
  - intros req sess v w H E H' E'. injection H as H. injection H' as H'.
    rewrite H, E, H', E'. split; [reflexivity|].
    exists (od_update (dict_class sess) req).
    split; [reflexivity|].
    assert (L : forall k,
               dict_get k (od_update (dict_class sess) req) =
               match items_get k req with
               | Some x => Some x
               | None => items_get k sess
               end).
    { intros k. rewrite dict_get_od_update, dict_get_dict_class.
      reflexivity. }
    split; [|split].
    + intros k. rewrite L, !dict_get_dict_class. reflexivity.
    + intros Hr Hs k. rewrite L.
      rewrite (items_get_nodup k req Hr), (items_get_nodup k sess Hs).
      reflexivity.
    + apply keys_od_update.
  - intros req sess R.
    destruct (eq_empty_list
                match dict_get "response" sess with
                | Some x => x
                | None => VNone
                end) eqn:E.
    + exists (VDict req). split; [reflexivity|].
      rewrite R.
      destruct (dict_get "response" sess) as [x|]; [|discriminate].
      destruct x as [| | | | |l| |]; try discriminate.
      destruct l; [reflexivity|discriminate].
    + exists (VDict sess). rewrite R. split; reflexivity.
Qed.

End MergeFacts.

(** *** sessions.py: redirects *)

Section RedirectFacts.
Import Sessions.

Lemma redirect_status_codes (z : Z) :
  existsb (Z.eqb z) REDIRECT_STATI = true <->
  (z = 301 \/ z = 302 \/ z = 303 \/ z = 307 \/ z = 308)%Z.
Proof.
  unfold REDIRECT_STATI; simpl.
  rewrite !orb_true_iff, !Z.eqb_eq. intuition discriminate.
Qed.

(** C8: [get_redirect_target] returns a URI exactly when the status is one
    of 301, 302, 303, 307, 308 and the response has a non-empty [Location]
    header; the URI is that header joined to the response's URL.  In every
    other case it returns [None]. *)
Theorem get_redirect_target_spec (urljoin : string -> string -> string)
    (resp : Response) :
  (forall target,
      get_redirect_target urljoin resp = Some target <->
      (status_code resp = 301 \/ status_code resp = 302 \/
       status_code resp = 303 \/ status_code resp = 307 \/
       status_code resp = 308)%Z /\
      exists location,
        ci_get "location" (headers resp) = Some location /\
        location <> "" /\
        target = urljoin (url resp) location) /\
  (get_redirect_target urljoin resp = None <->
   ~ ((status_code resp = 301 \/ status_code resp = 302 \/
       status_code resp = 303 \/ status_code resp = 307 \/
       status_code resp = 308)%Z /\
      exists location,
        ci_get "location" (headers resp) = Some location /\
        location <> "")).
Proof.
  unfold get_redirect_target, is_redirect.
  pose proof (redirect_status_codes (status_code resp)) as Hc.
  destruct (ci_get "location" (headers resp)) as [location|] eqn:Hl.
  - destruct (existsb (Z.eqb (status_code resp)) REDIRECT_STATI) eqn:Hs.
    + destruct (location =? "") eqn:He; simpl.
      * apply String.eqb_eq in He. subst location. split.
        -- intros target. split; [discriminate|].
           intros [_ [l [H1 [H2 _]]]]. injection H1 as <-. congruence.
        -- split; [|reflexivity].
           intros _ [_ [l [H1 H2]]]. injection H1 as <-. congruence.
      * apply String.eqb_neq in He. split.
        -- intros target. split.
           ++ intros H. injection H as <-. split; [now apply Hc|].
              exists location. auto.
           ++ intros [_ [l [H1 [_ H3]]]]. injection H1 as <-. now subst.
        -- split; [discriminate|].
           intros H. exfalso. apply H. split; [now apply Hc|].
           exists location. auto.
    + split.
      * intros target. split; [discriminate|].
        intros [H _]. apply Hc in H. discriminate.
      * split; [|reflexivity].
        intros _ [H _]. apply Hc in H. discriminate.
  - split.
    + intros target.
      split; [discriminate|]. intros [_ [l [H1 _]]]. discriminate.
    + split; [|reflexivity]. intros _ [_ [l [H1 _]]]. discriminate.
Qed.

(** C1 (the code at the failing input): when the two URLs have the same host
    name and the same port, [should_strip_auth] answers [False] whatever
    the schemes are; so a redirect from [https://example.com/a] to
    [http://example.com/b] keeps the [Authorization] header. *)
Theorem should_strip_auth_same_host_port :
  (forall (urlparse : string -> Urllib.ParseResult) old_url new_url,
      Urllib.hostname (urlparse old_url) = Urllib.hostname (urlparse new_url) ->
      Urllib.port (urlparse old_url) = Urllib.port (urlparse new_url) ->
      should_strip_auth urlparse old_url new_url = false) /\
  Urllib.scheme (Urllib.urlparse "https://example.com/a") = "https" /\
  Urllib.scheme (Urllib.urlparse "http://example.com/b") = "http" /\
  should_strip_auth Urllib.urlparse
    "https://example.com/a" "http://example.com/b" = false.
Proof.
  split; [|repeat split].
  intros urlparse old_url new_url Hh Hp.
  unfold should_strip_auth. rewrite Hh, Hp.
  assert (R1 : forall o : option string, opt_ne String.eqb o o = false).
  { intros [x|]; simpl; [now rewrite String.eqb_refl|reflexivity]. }
  assert (R2 : forall o : option Z, opt_ne Z.eqb o o = false).
  { intros [x|]; simpl; [now rewrite Z.eqb_refl|reflexivity]. }
  rewrite R1, R2.
  now destruct (_ && _).
Qed.

(** X1: What [should_strip_auth] computes: it answers [True] exactly when the
    host names differ, or the redirect is not one from [http] to [https] and
    the ports differ. *)
Lemma should_strip_auth_true_iff (urlparse : string -> Urllib.ParseResult)
    (old_url new_url : string) :
  should_strip_auth urlparse old_url new_url = true <->
  Urllib.hostname (urlparse old_url) <> Urllib.hostname (urlparse new_url) \/
  (~ (Urllib.scheme (urlparse old_url) = "http" /\
      Urllib.scheme (urlparse new_url) = "https") /\
   Urllib.port (urlparse old_url) <> Urllib.port (urlparse new_url)).
Proof.
  unfold should_strip_auth.
  assert (R1 : forall a b : option string,
             opt_ne String.eqb a b = true <-> a <> b).
  { intros [x|] [y|]; simpl; try (split; congruence).
    rewrite negb_true_iff, String.eqb_neq. split; congruence. }
  assert (R2 : forall a b : option Z, opt_ne Z.eqb a b = true <-> a <> b).
  { intros [x|] [y|]; simpl; try (split; congruence).
    rewrite negb_true_iff, Z.eqb_neq. split; congruence. }
  destruct (opt_ne String.eqb _ _) eqn:Eh.
  - apply R1 in Eh. tauto.
  - assert (Hh : ~ Urllib.hostname (urlparse old_url)
                   <> Urllib.hostname (urlparse new_url)).
    { intros H. apply R1 in H. congruence. }
    destruct (_ && _) eqn:Es.
    + apply andb_true_iff in Es. rewrite !String.eqb_eq in Es.
      split; [discriminate|]. tauto.
    + apply andb_false_iff in Es. rewrite !String.eqb_neq in Es.
      rewrite R2. tauto.
Qed.

(** C7 (the code at the failing input): [rebuild_method] leaves the request
    as it was, whatever the response; a [POST] answered by a 303 stays a
    [POST]. *)
Theorem rebuild_method_unchanged :
  (forall prepared_request response,
      fst (rebuild_method prepared_request response) = prepared_request) /\
  method
    (fst (rebuild_method
            {| method := "POST"; req_url := "http://example.com/a";
               req_headers := []; body := Some "x=1" |}
            {| status_code := 303;
               headers := [("Location", "/b")];
               url := "http://example.com/a";
               history := [];
               request := {| method := "POST";
                             req_url := "http://example.com/a";
                             req_headers := []; body := Some "x=1" |} |}))
  = "POST".
Proof. split; reflexivity. Qed.

End RedirectFacts.

(** *** Numbers as text *)

Section NumberFacts.












End NumberFacts.

(** *** auth.py: the digest header *)

Section DigestFacts.
Import Auth.

Variable md5_hexdigest sha1_hexdigest : string -> string.
Variable urlparse : string -> Urllib.ParseResult.
Variable username password : string.

Local Abbreviation build :=
  (build_digest_header md5_hexdigest sha1_hexdigest urlparse username password).
Local Abbreviation run :=
  (run_call md5_hexdigest sha1_hexdigest urlparse username password).
Local Abbreviation run_all :=
  (run_calls md5_hexdigest sha1_hexdigest urlparse username password).

Lemma select_hash_unknown (a : string) :
  a <> "MD5" -> a <> "MD5-SESS" -> a <> "SHA" ->
  select_hash md5_hexdigest sha1_hexdigest a = Unbound.
Proof.
  intros H1 H2 H3. unfold select_hash.
  apply String.eqb_neq in H1, H2, H3. now rewrite H1, H2, H3.
Qed.

Lemma select_hash_known (c : list (string * option string)) :
  algorithm_known c = true ->
  exists hash,
    select_hash md5_hexdigest sha1_hexdigest
      match chal_get "algorithm" c with
      | Some a => upper a
      | None => "MD5"
      end = Bound (Some hash).
Proof.
  unfold algorithm_known, select_hash.
  destruct (chal_get "algorithm" c) as [a|].
  - destruct (upper a =? "MD5"); simpl; [eauto|].
    destruct (upper a =? "MD5-SESS"); simpl; [eauto|].
    destruct (upper a =? "SHA"); simpl; [eauto|discriminate].
  - simpl. eauto.
Qed.

(** C10: when the challenge names an algorithm other than MD5, MD5-SESS
    and SHA (in any case), [build_digest_header] raises
    [UnboundLocalError] for its local [hash_utf8] and leaves the state as it
    was; it does not return [None].  The algorithm name is an ASCII string,
    on which [upper] is [str.upper]. *)
Theorem build_digest_header_unknown_algorithm (env : entropy)
    (method url : string) (tl : thread_local) (a : string) :
  chal_get "algorithm" (chal tl) = Some a ->
  isascii a = true ->
  upper a <> "MD5" -> upper a <> "MD5-SESS" -> upper a <> "SHA" ->
  build env method url tl = (Raise (UnboundLocalError "hash_utf8"), tl) /\
  fst (build env method url tl) <> Return None.
Proof.
  intros Ha _ H1 H2 H3.
  assert (E : build env method url tl
              = (Raise (UnboundLocalError "hash_utf8"), tl)).
  { unfold build_digest_header. rewrite Ha.
    rewrite (select_hash_unknown (upper a) H1 H2 H3). reflexivity. }
  split; [exact E|]. rewrite E. discriminate.
Qed.

Lemma append_empty_r (s : string) : s ++ "" = s.
Proof. induction s as [|c s IH]; simpl; [reflexivity|now rewrite IH]. Qed.

Lemma qop_offers_auth_nonempty (q : string) :
  qop_offers_auth q = true -> nonempty (Some q) = true.
Proof.
  simpl. destruct (q =? "") eqn:E; [|reflexivity].
  apply String.eqb_eq in E. subst q. discriminate.
Qed.

(** One call on an answerable challenge: the header is returned, the nonce
    count follows the last nonce, the nonce is remembered, and a challenge
    with a [qop] gets the count as its [nc] field. *)
Lemma build_digest_header_answerable (env : entropy) (method url : string)
    (tl : thread_local) (nonce : string) :
  answerable (chal tl) = true ->
  chal_get "nonce" (chal tl) = Some nonce ->
  let count :=
    if nonce =? last_nonce tl then (nonce_count tl + 1)%N else 1%N in
  exists header,
    build env method url tl =
    (Return (Some header), set_last_nonce nonce (set_nonce_count count tl)) /\
    (forall q,
        chal_get "qop" (chal tl) = Some q ->
        exists pre cnonce,
          header = pre ++ ", qop=" ++ quoted "auth" ++ ", nc="
                     ++ fmt_08x count ++ ", cnonce=" ++ quoted cnonce) /\
    (chal_get "qop" (chal tl) = None ->
     exists respdig,
       header =
       "Digest "
         ++ (("username=" ++ quoted username
                ++ ", realm=" ++ quoted (fmt_s (chal_get "realm" (chal tl)))
                ++ ", nonce=" ++ quoted nonce
                ++ ", uri=" ++ quoted (digest_path urlparse url)
                ++ ", response=" ++ quoted respdig)
               ++ (if nonempty (chal_get "opaque" (chal tl))
                   then ", opaque="
                          ++ quoted (fmt_s (chal_get "opaque" (chal tl)))
                   else ""))
         ++ (if nonempty (chal_get "algorithm" (chal tl))
             then ", algorithm="
                    ++ quoted (fmt_s (chal_get "algorithm" (chal tl)))
             else "")).
Proof.
  intros Ha Hn count.
  unfold answerable, computable in Ha.
  apply andb_true_iff in Ha. destruct Ha as [Ha Hq].
  apply andb_true_iff in Ha. destruct Ha as [Hk _].
  destruct (select_hash_known (chal tl) Hk) as [hash Hh].
  unfold build_digest_header.
  rewrite Hh, Hn. cbn [read_local nonce_is].
  assert (Et : (if nonce =? last_nonce tl
                then set_nonce_count (nonce_count tl + 1) tl
                else set_nonce_count 1 tl) = set_nonce_count count tl).
  { unfold count. destruct (nonce =? last_nonce tl); reflexivity. }
  rewrite Et. cbn [nonce_count set_nonce_count].
  destruct (chal_get "qop" (chal tl)) as [q|] eqn:Eq.
  - rewrite Hq. eexists. split; [reflexivity|].
    split; [|discriminate].
    intros q' Hq'. injection Hq' as <-.
    unfold digest_header_text.
    rewrite (qop_offers_auth_nonempty q Hq).
    eexists ("Digest " ++ _), _. cbn [append]. reflexivity.
  - eexists. split; [reflexivity|].
    split; [intros q' Hq'; discriminate|].
    intros _. eexists. unfold digest_header_text. cbn [nonempty].
    destruct (nonempty (chal_get "opaque" (chal tl)));
      destruct (nonempty (chal_get "algorithm" (chal tl)));
      rewrite ?append_empty_r; reflexivity.
Qed.

Lemma run_calls_snoc (calls : list digest_call) (c : digest_call)
    (tl : thread_local) :
  run_all (calls ++ [c])%list tl = snd (run c (run_all calls tl)).
Proof. unfold run_calls. now rewrite fold_left_app. Qed.



End DigestFacts.

Lemma build_digest_header_unknown_algorithm_witness :
  Auth.build_digest_header Sample.md5 Sample.sha1 Urllib.urlparse
    "user" "pass" Sample.env "GET" "http://example.com/a"
    Sample.sha256_state
  = (Raise (UnboundLocalError "hash_utf8"), Sample.sha256_state) /\
  fst (Auth.build_digest_header Sample.md5 Sample.sha1 Urllib.urlparse
         "user" "pass" Sample.env "GET" "http://example.com/a"
         Sample.sha256_state)
  <> Return None.
Proof.
  apply (build_digest_header_unknown_algorithm Sample.md5 Sample.sha1
           Urllib.urlparse "user" "pass" Sample.env "GET"
           "http://example.com/a" Sample.sha256_state "SHA-256").
  - reflexivity.
  - reflexivity.
  - simpl. discriminate.
  - simpl. discriminate.
  - simpl. discriminate.
Defined.



(** *** auth.py: answering a challenge *)

Section ChallengeFacts.
Import Auth.

Variable md5_hexdigest sha1_hexdigest : string -> string.
Variable urlparse : string -> Urllib.ParseResult.
Variable username password : string.
Variable parse_dict_header : string -> list (string * option string).
Variable prepare_cookies : PreparedRequest -> Response -> PreparedRequest.
Variable connection_send : PreparedRequest -> outcome (option Response).

Local Abbreviation build :=
  (build_digest_header md5_hexdigest sha1_hexdigest urlparse username password).
Local Abbreviation handle :=
  (handle_401 md5_hexdigest sha1_hexdigest urlparse username password
     parse_dict_header prepare_cookies connection_send).

(** On a computable challenge [build_digest_header] returns (a header or
    [None]); it raises nothing. *)
Lemma build_digest_header_computable (env : entropy) (method url : string)
    (tl : thread_local) :
  computable (chal tl) = true ->
  exists authorization tl',
    build env method url tl = (Return authorization, tl') /\
    num_401_calls tl' = num_401_calls tl.
Proof.
  intros Hc. unfold computable in Hc.
  apply andb_true_iff in Hc. destruct Hc as [Hk Hn].
  destruct (select_hash_known md5_hexdigest sha1_hexdigest (chal tl) Hk)
    as [hash Hh].
  unfold build_digest_header. rewrite Hh. cbn [read_local].
  destruct (chal_get "nonce" (chal tl)) as [n|]; [|discriminate].
  destruct (chal_get "qop" (chal tl)) as [q|].
  - destruct (qop_offers_auth q).
    + eexists _, _. split; [reflexivity|].
      destruct (nonce_is _ _); reflexivity.
    + eexists _, _. split; [reflexivity|].
      destruct (nonce_is _ _); reflexivity.
  - eexists _, _. split; [reflexivity|].
    destruct (nonce_is _ _); reflexivity.
Qed.

(** The three ways through [handle_401]. *)
Lemma handle_401_not_4xx (env : entropy) (r : Response) (w : world) :
  (400 <=? status_code r)%Z && (status_code r <? 500)%Z = false ->
  handle env r w =
  (Return r,
   {| tls := set_num_401_calls 1 (tls w);
      body_position := body_position w; sent := sent w |}).
Proof.
  intros E. unfold handle_401. rewrite E. reflexivity.
Qed.

Lemma handle_401_no_challenge (env : entropy) (r : Response) (w : world) :
  (400 <=? status_code r)%Z && (status_code r <? 500)%Z = true ->
  contains "digest"
    (lower match ci_get "www-authenticate" (headers r) with
           | Some v => v
           | None => ""
           end)
    && (num_401_calls (tls w) <? 2)%Z = false ->
  handle env r w =
  (Return r,
   {| tls := set_num_401_calls 1 (tls w);
      body_position := match pos (tls w) with
                       | Some p => p
                       | None => body_position w
                       end;
      sent := sent w |}).
Proof.
  intros E1 E2. unfold handle_401. rewrite E1. cbn [negb].
  unfold mbind, get_tls, modify_tls, seek, ret.
  destruct (pos (tls w)); cbn [tls body_position sent]; rewrite E2;
    reflexivity.
Qed.

Lemma handle_401_challenge (env : entropy) (r : Response) (w : world)
    (authorization : option string) (tl' : thread_local) :
  let s_auth :=
    match ci_get "www-authenticate" (headers r) with
    | Some v => v
    | None => ""
    end in
  let prep := prepare_cookies (request r) r in
  (400 <=? status_code r)%Z && (status_code r <? 500)%Z = true ->
  contains "digest" (lower s_auth) && (num_401_calls (tls w) <? 2)%Z = true ->
  build env (method prep) (req_url prep)
    (set_chal (parse_dict_header (re_sub_first_ci "digest " s_auth))
       (set_num_401_calls (num_401_calls (tls w) + 1) (tls w)))
  = (Return authorization, tl') ->
  handle env r w =
  (match connection_send (set_authorization authorization prep) with
   | Return (Some _r) =>
       Return (attach r (set_authorization authorization prep) _r)
   | Return None => Raise (AttributeError "history")
   | Raise e => Raise e
   end,
   {| tls := tl';
      body_position := match pos (tls w) with
                       | Some p => p
                       | None => body_position w
                       end;
      sent := (sent w ++ [set_authorization authorization prep])%list |}).
Proof.
  intros s_auth prep E1 E2 Eb. unfold handle_401. rewrite E1. cbn [negb].
  fold s_auth.
  unfold mbind, get_tls, modify_tls, on_tls, send_on_connection, seek, ret,
    raise.
  destruct (pos (tls w)); cbn [tls body_position sent]; rewrite E2;
    cbn [tls body_position sent]; fold prep; rewrite Eb;
    cbn [tls body_position sent];
    destruct (connection_send (set_authorization authorization prep))
      as [[_r|]|e]; reflexivity.
Qed.

(** C3 (amended): [handle_401] hands a request to the connection only if
    the status is in 400..499, the [WWW-Authenticate] header contains
    [digest] in any case, and the retry counter is below 2.  Under these
    conditions, when the challenge is computable (it has a nonce and a known
    algorithm), it sends the copied request once, with [Authorization] set
    to what [build_digest_header] returns, and counts the attempt; a
    response the connection returns is returned with the challenge response
    appended to its history and the sent request as its request.  When the
    conditions fail the original response is returned, nothing is sent and
    the counter is reset to 1. *)
Theorem handle_401_spec (env : entropy) (r : Response) (w : world) :
  let s_auth :=
    match ci_get "www-authenticate" (headers r) with
    | Some v => v
    | None => ""
    end in
  let due :=
    (400 <= status_code r < 500)%Z /\
    contains "digest" (lower s_auth) = true /\
    (num_401_calls (tls w) < 2)%Z in
  let challenge := parse_dict_header (re_sub_first_ci "digest " s_auth) in
  let prep := prepare_cookies (request r) r in
  let res := handle env r w in
  (sent (snd res) <> sent w -> due) /\
  (due -> computable challenge = true ->
   exists authorization tl',
     build env (method prep) (req_url prep)
       (set_chal challenge
          (set_num_401_calls (num_401_calls (tls w) + 1) (tls w)))
     = (Return authorization, tl') /\
     sent (snd res) = (sent w ++ [set_authorization authorization prep])%list /\
     num_401_calls (tls (snd res)) = (num_401_calls (tls w) + 1)%Z /\
     fst res =
     match connection_send (set_authorization authorization prep) with
     | Return (Some _r) =>
         Return {| status_code := status_code _r; headers := headers _r;
                   url := url _r;
                   history := (history _r ++ [r])%list;
                   request := set_authorization authorization prep |}
     | Return None => Raise (AttributeError "history")
     | Raise e => Raise e
     end) /\
  (~ due ->
   fst res = Return r /\
   sent (snd res) = sent w /\
   num_401_calls (tls (snd res)) = 1%Z).
Proof.
  intros s_auth due challenge prep res.
  assert (Hdue : due <->
            ((400 <=? status_code r)%Z && (status_code r <? 500)%Z = true /\
             contains "digest" (lower s_auth)
               && (num_401_calls (tls w) <? 2)%Z = true)).
  { unfold due. rewrite !andb_true_iff, Z.leb_le, !Z.ltb_lt. tauto. }
  destruct ((400 <=? status_code r)%Z && (status_code r <? 500)%Z) eqn:Es.
  - destruct (contains "digest" (lower s_auth)
                && (num_401_calls (tls w) <? 2)%Z) eqn:Ed.
    + assert (D : due) by (apply Hdue; auto).
      split; [intros _; exact D|]. split; [|tauto].
      intros _ Hc.
      destruct (build_digest_header_computable env (method prep)
                  (req_url prep)
                  (set_chal challenge
                     (set_num_401_calls (num_401_calls (tls w) + 1) (tls w)))
                  Hc) as [authorization [tl' [Eb Hn]]].
      exists authorization, tl'. split; [exact Eb|].
      unfold res.
      rewrite (handle_401_challenge env r w authorization tl' Es Ed Eb).
      cbn [fst snd sent tls].
      split; [reflexivity|]. split; [rewrite Hn; reflexivity|].
      fold prep.
      destruct (connection_send (set_authorization authorization prep))
        as [[_r|]|e]; reflexivity.
    + assert (ND : ~ due) by (intros D; apply Hdue in D; destruct D; congruence).
      unfold res. rewrite (handle_401_no_challenge env r w Es Ed).
      cbn [fst snd sent tls num_401_calls set_num_401_calls].
      split; [intros H; exfalso; now apply H|]. split; [tauto|]. auto.
  - assert (ND : ~ due) by (intros D; apply Hdue in D; destruct D; congruence).
    unfold res. rewrite (handle_401_not_4xx env r w Es).
    cbn [fst snd sent tls num_401_calls set_num_401_calls].
    split; [intros H; exfalso; now apply H|]. split; [tauto|]. auto.
Qed.

End ChallengeFacts.

(** C3 (as stated, refuted): a 500 response that carries a digest challenge,
    on an auth object whose retry counter is 1, is returned as it is and
    nothing is sent, although 500 is a server error. *)
Lemma handle_401_ignores_server_error :
  let r := Sample.challenge 500 "Digest realm=r, nonce=abc, qop=auth" in
  let res :=
    Auth.handle_401 Sample.md5 Sample.sha1 Urllib.urlparse "user" "pass"
      Sample.parse_dict_header Sample.prepare_cookies Sample.connection_send
      Sample.env r Sample.fresh in
  (400 <= status_code r < 600)%Z /\
  contains "digest" (lower "Digest realm=r, nonce=abc, qop=auth") = true /\
  (Auth.num_401_calls (Auth.tls Sample.fresh) < 2)%Z /\
  fst res = Return r /\
  Auth.sent (snd res) = [].
Proof.
  cbv zeta. split; [simpl; lia|]. split; [reflexivity|].
  split; [simpl; lia|]. split; reflexivity.
Qed.

(** The same challenge with status 401 is answered: one request goes out
    with the digest header, and the 200 that comes back carries the 401 in
    its history. *)
Example handle_401_resends_on_401 :
  let r := Sample.challenge 401 "Digest realm=r, nonce=abc, qop=auth" in
  let res :=
    Auth.handle_401 Sample.md5 Sample.sha1 Urllib.urlparse "user" "pass"
      Sample.parse_dict_header Sample.prepare_cookies Sample.connection_send
      Sample.env r Sample.fresh in
  exists new prep authorization,
    fst res = Return new /\
    status_code new = 200%Z /\
    history new = [r] /\
    request new = prep /\
    Auth.sent (snd res) = [prep] /\
    ci_get "authorization" (req_headers prep) = Some (Some authorization) /\
    contains "nc=00000001" authorization = true /\
    Auth.num_401_calls (Auth.tls (snd res)) = 2%Z.
Proof.
  cbv zeta. eexists _, _, _.
  split; [vm_compute; reflexivity|].
  split; [reflexivity|]. split; [reflexivity|]. split; [reflexivity|].
  split; [vm_compute; reflexivity|].
  split; [vm_compute; reflexivity|].
  split; vm_compute; reflexivity.
Qed.

(** A second challenge in a row is not answered: the counter is at 2. *)
Example handle_401_gives_up :
  let r := Sample.challenge 401 "Digest realm=r, nonce=abc, qop=auth" in
  let w :=
    {| Auth.tls := Auth.set_num_401_calls 2 Auth.init_state;
       Auth.body_position := 0; Auth.sent := [] |} in
  let res :=
    Auth.handle_401 Sample.md5 Sample.sha1 Urllib.urlparse "user" "pass"
      Sample.parse_dict_header Sample.prepare_cookies Sample.connection_send
      Sample.env r w in
  fst res = Return r /\ Auth.sent (snd res) = [] /\
  Auth.num_401_calls (Auth.tls (snd res)) = 1%Z.
Proof. cbv zeta. repeat split. Qed.

(** An unknown algorithm stops the resend: the exception of
    [build_digest_header] leaves [handle_401] and nothing is sent. *)
Example handle_401_unknown_algorithm :
  let r := Sample.challenge 401 "Digest realm=r, nonce=abc, algorithm=SHA-256" in
  let res :=
    Auth.handle_401 Sample.md5 Sample.sha1 Urllib.urlparse "user" "pass"
      Sample.parse_dict_header Sample.prepare_cookies Sample.connection_send
      Sample.env r Sample.fresh in
  fst res = Raise (UnboundLocalError "hash_utf8") /\ Auth.sent (snd res) = [].
Proof. cbv zeta. split; vm_compute; reflexivity. Qed.

(** *** adapters.py *)

Section AdapterFacts.
Import Adapters.

Variable urlparse : string -> Urllib.ParseResult.
Variable isdir : string -> bool.
Local Abbreviation pool_key :=
  (HTTPAdapter.build_connection_pool_key_attributes urlparse isdir).
Local Abbreviation ssl_params_of verify cert :=
  (HTTPAdapter.ssl_params_cert cert
     (HTTPAdapter.ssl_params_verify isdir verify)).

(** The [verify] branches set none of the client-certificate fields. *)
Lemma ssl_params_verify_no_cert (verify : value) :
  dict_get "cert_file" (HTTPAdapter.ssl_params_verify isdir verify) = None /\
  dict_get "key_file" (HTTPAdapter.ssl_params_verify isdir verify) = None.
Proof.
  destruct verify as [| b | z | p | id | l | l | d]; simpl; auto.
  destruct (isdir p); simpl; auto.
Qed.

(** The [cert] block leaves every other field as it was. *)
Lemma ssl_params_cert_frame (k : string) (cert : value)
    (d : list (string * value)) :
  k <> "cert_file" -> k <> "key_file" ->
  dict_get k (HTTPAdapter.ssl_params_cert cert d) = dict_get k d.
Proof.
  intros H1 H2. unfold HTTPAdapter.ssl_params_cert.
  assert (E1 : ("cert_file" =? k) = false)
    by (apply String.eqb_neq; congruence).
  assert (E2 : ("key_file" =? k) = false)
    by (apply String.eqb_neq; congruence).
  destruct (truthy cert); [|reflexivity].
  destruct cert as [| b | z | p | id | l | l | items]; try reflexivity.
  - now rewrite dict_get_od_insert, E1.
  - destruct l as [|c [|k' [|x l]]]; try reflexivity.
    now rewrite !dict_get_od_insert, E2, E1.
Qed.

(** A URL without a port: the name [DEFAULT_PORTS] is looked up and is not
    there. *)
Lemma pool_key_no_port (request : PreparedRequest) (verify cert : value) :
  Urllib.port (urlparse (req_url request)) = None ->
  pool_key request verify cert = Raise (OtherError "NameError").
Proof.
  intros H. unfold HTTPAdapter.build_connection_pool_key_attributes.
  now rewrite H.
Qed.

(** A URL with a port: the key is returned. *)
Lemma pool_key_with_port (request : PreparedRequest) (verify cert : value)
    (p : Z) :
  Urllib.port (urlparse (req_url request)) = Some p ->
  pool_key request verify cert =
  Return ([("scheme", VStr (Urllib.scheme (urlparse (req_url request))));
           ("host",
            HTTPAdapter.opt_str
              (Urllib.hostname (urlparse (req_url request))));
           ("port", VInt p)],
          ssl_params_of verify cert).
Proof.
  intros H. unfold HTTPAdapter.build_connection_pool_key_attributes.
  now rewrite H.
Qed.

(** What the two blocks write into the TLS parameters. *)
Lemma ssl_params_fields :
  (forall cert,
      dict_get "cert_reqs" (ssl_params_of (VBool true) cert)
      = Some (VStr "CERT_REQUIRED") /\
      dict_get "ca_certs" (ssl_params_of (VBool true) cert) = None /\
      dict_get "ca_certs_dir" (ssl_params_of (VBool true) cert) = None) /\
  (forall cert,
      dict_get "cert_reqs" (ssl_params_of (VBool false) cert)
      = Some (VStr "CERT_NONE")) /\
  (forall p cert,
      isdir p = false ->
      dict_get "ca_certs" (ssl_params_of (VStr p) cert) = Some (VStr p) /\
      dict_get "ca_certs_dir" (ssl_params_of (VStr p) cert) = None) /\
  (forall p cert,
      isdir p = true ->
      dict_get "ca_certs_dir" (ssl_params_of (VStr p) cert) = Some (VStr p) /\
      dict_get "ca_certs" (ssl_params_of (VStr p) cert) = None) /\
  (forall verify p,
      p <> "" ->
      dict_get "cert_file" (ssl_params_of verify (VStr p)) = Some (VStr p) /\
      dict_get "key_file" (ssl_params_of verify (VStr p)) = None) /\
  (forall verify c k,
      dict_get "cert_file" (ssl_params_of verify (VTuple [c; k])) = Some c /\
      dict_get "key_file" (ssl_params_of verify (VTuple [c; k])) = Some k).
Proof.
  split; [|split; [|split; [|split; [|split]]]].
  - intros cert.
    rewrite !ssl_params_cert_frame by discriminate. repeat split.
  - intros cert. rewrite ssl_params_cert_frame by discriminate. reflexivity.
  - intros p cert Hd. rewrite !ssl_params_cert_frame by discriminate.
    simpl. rewrite Hd. split; reflexivity.
  - intros p cert Hd. rewrite !ssl_params_cert_frame by discriminate.
    simpl. rewrite Hd. split; reflexivity.
  - intros verify p Hp.
    destruct (ssl_params_verify_no_cert verify) as [_ Hk].
    unfold HTTPAdapter.ssl_params_cert. cbn [truthy].
    apply String.eqb_neq in Hp. rewrite Hp. cbn [negb].
    rewrite !dict_get_od_insert. simpl. split; [reflexivity|exact Hk].
  - intros verify c k.
    unfold HTTPAdapter.ssl_params_cert. cbn [truthy].
    rewrite !dict_get_od_insert. simpl. split; reflexivity.
Qed.

(** C4 (the code at the failing input): for a request whose URL names no
    port the method reads [DEFAULT_PORTS], a name that [adapters.py] neither
    imports nor defines, and raises [NameError] whatever [verify] and [cert]
    are, so no pool key is produced; the request for
    [http://example.com/a] with [verify=True] and no [cert] is one.  Only for
    a URL that names its port is the key returned, and then its TLS
    parameters are these: [verify=True] gives
    [cert_reqs = CERT_REQUIRED] and neither [ca_certs] nor [ca_certs_dir];
    [verify=False] gives [cert_reqs = CERT_NONE]; a string gives [ca_certs]
    when it is no directory and [ca_certs_dir] when it is one, never both; a
    (non-empty) path as [cert] gives [cert_file] and no [key_file]; a pair
    gives [cert_file] and [key_file]. *)
Theorem pool_key_tls_parameters (request : PreparedRequest) :
  (Urllib.port (urlparse (req_url request)) = None ->
   forall verify cert,
     pool_key request verify cert = Raise (OtherError "NameError")) /\
  HTTPAdapter.build_connection_pool_key_attributes Urllib.urlparse isdir
    Sample.get_a (VBool true) VNone = Raise (OtherError "NameError") /\
  (forall port,
      Urllib.port (urlparse (req_url request)) = Some port ->
      (forall verify cert,
          exists host_params ssl_params,
            pool_key request verify cert = Return (host_params, ssl_params) /\
            dict_get "port" host_params = Some (VInt port)) /\
      (forall cert host_params ssl_params,
          pool_key request (VBool true) cert
          = Return (host_params, ssl_params) ->
          dict_get "cert_reqs" ssl_params = Some (VStr "CERT_REQUIRED") /\
          dict_get "ca_certs" ssl_params = None /\
          dict_get "ca_certs_dir" ssl_params = None) /\
      (forall cert host_params ssl_params,
          pool_key request (VBool false) cert
          = Return (host_params, ssl_params) ->
          dict_get "cert_reqs" ssl_params = Some (VStr "CERT_NONE")) /\
      (forall p cert host_params ssl_params,
          isdir p = false ->
          pool_key request (VStr p) cert = Return (host_params, ssl_params) ->
          dict_get "ca_certs" ssl_params = Some (VStr p) /\
          dict_get "ca_certs_dir" ssl_params = None) /\
      (forall p cert host_params ssl_params,
          isdir p = true ->
          pool_key request (VStr p) cert = Return (host_params, ssl_params) ->
          dict_get "ca_certs_dir" ssl_params = Some (VStr p) /\
          dict_get "ca_certs" ssl_params = None) /\
      (forall verify p host_params ssl_params,
          p <> "" ->
          pool_key request verify (VStr p)
          = Return (host_params, ssl_params) ->
          dict_get "cert_file" ssl_params = Some (VStr p) /\
          dict_get "key_file" ssl_params = None) /\
      (forall verify c k host_params ssl_params,
          pool_key request verify (VTuple [c; k])
          = Return (host_params, ssl_params) ->
          dict_get "cert_file" ssl_params = Some c /\
          dict_get "key_file" ssl_params = Some k)).
Proof.
  split; [|split].
  - intros H verify cert. now apply pool_key_no_port.
  - reflexivity.
  - intros port H.
    assert (E : forall verify cert host_params ssl_params,
               pool_key request verify cert
               = Return (host_params, ssl_params) ->
               ssl_params = ssl_params_of verify cert).
    { intros verify cert host_params ssl_params.
      rewrite (pool_key_with_port request verify cert port H).
      intros E. now inversion E. }
    destruct ssl_params_fields as [F1 [F2 [F3 [F4 [F5 F6]]]]].
    split; [|split; [|split; [|split; [|split; [|split]]]]].
    + intros verify cert. eexists. eexists.
      split; [exact (pool_key_with_port request verify cert port H)|].
      reflexivity.
    + intros cert h s Hk. rewrite (E _ _ _ _ Hk). apply F1.
    + intros cert h s Hk. rewrite (E _ _ _ _ Hk). apply F2.
    + intros p cert h s Hd Hk. rewrite (E _ _ _ _ Hk). now apply F3.
    + intros p cert h s Hd Hk. rewrite (E _ _ _ _ Hk). now apply F4.
    + intros verify p h s Hp Hk. rewrite (E _ _ _ _ Hk). now apply F5.
    + intros verify c k h s Hk. rewrite (E _ _ _ _ Hk). apply F6.
Qed.

End AdapterFacts.

Example pool_key_without_port :
  Adapters.HTTPAdapter.build_connection_pool_key_attributes Urllib.urlparse
    (fun p => p =? "/etc/ssl/certs")
    Sample.get_a (VStr "/path/to/bundle.pem")
    (VTuple [VStr "c.pem"; VStr "k.pem"])
  = Raise (OtherError "NameError").
Proof. reflexivity. Qed.

Example pool_key_bundle_and_pair :
  Adapters.HTTPAdapter.build_connection_pool_key_attributes Urllib.urlparse
    (fun p => p =? "/etc/ssl/certs")
    Sample.get_8443 (VStr "/path/to/bundle.pem")
    (VTuple [VStr "c.pem"; VStr "k.pem"])
  = Return
      ([("scheme", VStr "https"); ("host", VStr "example.com");
        ("port", VInt 8443)],
       [("ca_certs", VStr "/path/to/bundle.pem"); ("cert_file", VStr "c.pem");
        ("key_file", VStr "k.pem")]).
Proof. reflexivity. Qed.

Example pool_key_directory_and_single_cert :
  Adapters.HTTPAdapter.build_connection_pool_key_attributes
    Urllib.urlparse (fun p => p =? "/etc/ssl/certs")
    Sample.get_8443 (VStr "/etc/ssl/certs") (VStr "combined.pem")
  = Return
      ([("scheme", VStr "https"); ("host", VStr "example.com");
        ("port", VInt 8443)],
       [("ca_certs_dir", VStr "/etc/ssl/certs");
        ("cert_file", VStr "combined.pem")]).
Proof. reflexivity. Qed.

(** An empty string as [cert] is taken as no certificate. *)
Example pool_key_empty_cert :
  Adapters.HTTPAdapter.build_connection_pool_key_attributes
    Urllib.urlparse (fun p => p =? "/etc/ssl/certs")
    Sample.get_8443 (VBool true) (VStr "")
  = Return
      ([("scheme", VStr "https"); ("host", VStr "example.com");
        ("port", VInt 8443)],
       [("cert_reqs", VStr "CERT_REQUIRED")]).
Proof. reflexivity. Qed.

Section SendFacts.
Import Adapters.

Variable connection : Type.
Variable get_connection : string -> value -> outcome connection.
Variable urlopen :
  connection -> PreparedRequest -> bool -> value -> outcome RawResponse.

(** C9 (the code at the failing input): [BaseAdapter.send] turns a
    [ProtocolError] or a socket error of the exchange into a
    [ConnectionError] that holds it, and returns a response when the
    exchange succeeds; [HTTPAdapter.send], the adapter a session mounts,
    overrides it with an empty body: whatever it is given it returns [None],
    which is neither a response nor a [ConnectionError]. *)
Theorem http_adapter_send_returns_none :
  (forall request stream timeout verify cert proxies conn,
      get_connection (req_url request) proxies = Return conn ->
      (forall msg,
          urlopen conn request (negb stream) timeout
          = Raise (ProtocolError msg) ->
          BaseAdapter.send connection get_connection urlopen
            request stream timeout verify cert proxies
          = Raise (ConnectionError (ProtocolError msg))) /\
      (forall msg,
          urlopen conn request (negb stream) timeout
          = Raise (socket_error msg) ->
          BaseAdapter.send connection get_connection urlopen
            request stream timeout verify cert proxies
          = Raise (ConnectionError (socket_error msg))) /\
      (forall raw,
          urlopen conn request (negb stream) timeout = Return raw ->
          exists response,
            BaseAdapter.send connection get_connection urlopen
              request stream timeout verify cert proxies
            = Return (Some response) /\
            status_code response = raw_status raw /\
            Models.request response = request)) /\
  (forall request stream timeout verify cert proxies,
      HTTPAdapter.send request stream timeout verify cert proxies
      = Return None) /\
  HTTPAdapter.send Sample.get_a false VNone (VBool true) VNone VNone
  = Return None.
Proof.
  split; [|split; reflexivity].
  intros request stream timeout verify cert proxies conn Hc.
  unfold BaseAdapter.send, BaseAdapter.send_body, bind. rewrite Hc.
  split; [|split].
  - intros msg H. rewrite H. reflexivity.
  - intros msg H. rewrite H. reflexivity.
  - intros raw H. rewrite H. eexists. split; [reflexivity|].
    split; reflexivity.
Qed.

End SendFacts.

(** *** Evaluations at concrete inputs *)

Example urlparse_full :
  Urllib.urlparse "HTTP://User:pw@Example.COM:8080/a/b?x=1#f" =
  Urllib.mkParseResult "http" (Some "example.com") (Some 8080%Z) "/a/b" "x=1".
Proof. reflexivity. Qed.

Example urlparse_bare_host :
  Urllib.urlparse "https://example.com" =
  Urllib.mkParseResult "https" (Some "example.com") None "" "".
Proof. reflexivity. Qed.

Example strip_auth_kept_on_upgrade :
  Sessions.should_strip_auth Urllib.urlparse
    "http://example.com/a" "https://example.com/b" = false.
Proof. reflexivity. Qed.

Example strip_auth_on_other_host :
  Sessions.should_strip_auth Urllib.urlparse
    "http://example.com/a" "http://other.example/b" = true.
Proof. reflexivity. Qed.

Example strip_auth_on_port_change :
  Sessions.should_strip_auth Urllib.urlparse
    "http://example.com/a" "http://example.com:8080/b" = true.
Proof. reflexivity. Qed.

Example redirect_target_relative :
  Sessions.get_redirect_target (fun base location => base ++ "|" ++ location)
    {| status_code := 302; headers := [("Location", "/b")];
       url := "http://example.com/a"; history := [];
       request := Sample.get_a |}
  = Some "http://example.com/a|/b".
Proof. reflexivity. Qed.

Example redirect_target_not_a_redirect :
  Sessions.get_redirect_target (fun base location => base ++ "|" ++ location)
    {| status_code := 200; headers := [("Location", "/b")];
       url := "http://example.com/a"; history := [];
       request := Sample.get_a |}
  = None.
Proof. reflexivity. Qed.

Example merge_setting_overrides :
  Sessions.merge_setting
    (VDict [("b", VInt 20); ("c", VInt 30)])
    (VDict [("a", VInt 1); ("b", VInt 2)])
  = VDict [("a", VInt 1); ("b", VInt 20); ("c", VInt 30)].
Proof. reflexivity. Qed.

Example merge_hooks_empty_call_list :
  Sessions.merge_hooks
    (VDict [("response", VList [])])
    (VDict [("response", VList [VCallable 7])])
  = Return (VDict [("response", VList [VCallable 7])]).
Proof. reflexivity. Qed.

(** Two non-empty hook mappings go through [merge_setting]: the per-call
    binding of ['response'] replaces the session's. *)
Example merge_hooks_both :
  Sessions.merge_hooks
    (VDict [("response", VList [VCallable 1])])
    (VDict [("response", VList [VCallable 7])])
  = Return (VDict [("response", VList [VCallable 1])]).
Proof. reflexivity. Qed.

Example fmt_08x_values :
  fmt_08x 1 = "00000001" /\ fmt_08x 255 = "000000ff" /\
  fmt_08x 4294967296 = "100000000" /\ str_of_N 120 = "120".
Proof. repeat split. Qed.

Example qop_list_offers_auth :
  Auth.qop_offers_auth "auth-int,auth" = true /\
  Auth.qop_offers_auth "auth-int" = false.
Proof. split; reflexivity. Qed.

(* ===================================================================== *)
(** ** Further properties of the code *)
(* ===================================================================== *)

(** *** hooks.py *)

Section HookFacts.
Import Hooks.

Variable data : Type.
Variable call : nat -> data -> outcome (option data).

Local Abbreviation dispatch := (dispatch_hook data call).
Local Abbreviation run := (run_hooks data call).

Lemma run_hooks_app (l1 l2 : list value) (x : data) :
  run (l1 ++ l2)%list x = bind (run l1 x) (run l2).
Proof.
  revert x. induction l1 as [|h t IH]; intros x; simpl.
  - reflexivity.
  - destruct (apply_hook data call h x) as [y|e]; simpl; [apply IH|reflexivity].
Qed.

Lemma run_hooks_quiet (l : list value) (x y : data) :
  (forall id d, call id d = Return None) ->
  run l x = Return y -> y = x.
Proof.
  intros Hq. revert x. induction l as [|h t IH]; intros x; simpl.
  - congruence.
  - destruct h as [| b | z | s | id | l | l | d]; simpl; try discriminate.
    rewrite Hq. simpl. apply IH.
Qed.

(** X2: Hooks that return [None] never change the data: when every callable
    returns [None], whatever [dispatch_hook] returns is the [hook_data] it
    was given. *)
Theorem dispatch_hook_none_keeps_data (key : string) (hooks : value)
    (hook_data result : data) :
  (forall id d, call id d = Return None) ->
  fst (dispatch key hooks hook_data) = Return result ->
  result = hook_data.
Proof.
  intros Hq. unfold dispatch_hook.
  destruct (truthy hooks); [|simpl; congruence].
  destruct (py_in key hooks) as [[|]|e]; simpl; try congruence.
  destruct hooks as [| b | z | s | id | l | l | d]; simpl; try discriminate.
  destruct (dict_get key d) as [v|]; simpl; [|discriminate].
  destruct v as [| b | z | s | id | l | l | d']; simpl; try discriminate.
  - intros H.
    destruct (run (map (fun c => VStr (String c "")) (list_ascii_of_string s))
                hook_data) eqn:E; [|discriminate].
    injection H as <-. exact (run_hooks_quiet _ _ _ Hq E).
  - rewrite Hq. simpl. congruence.
  - intros H. exact (run_hooks_quiet _ _ _ Hq H).
  - intros H. exact (run_hooks_quiet _ _ _ Hq H).
  - intros H. exact (run_hooks_quiet _ _ _ Hq H).
Qed.

(** X3: Hooks compose in list order: dispatching a list that is the
    concatenation of two lists is dispatching the first and then, on its
    result, the second; an exception of the first part skips the second. *)
Theorem dispatch_hook_concatenation (key : string)
    (d d1 d2 : list (string * value)) (l1 l2 : list value)
    (hook_data : data) :
  dict_get key d1 = Some (VList l1) ->
  dict_get key d2 = Some (VList l2) ->
  dict_get key d = Some (VList (l1 ++ l2)) ->
  fst (dispatch key (VDict d) hook_data) =
  bind (fst (dispatch key (VDict d1) hook_data))
    (fun y => fst (dispatch key (VDict d2) y)).
Proof.
  intros H1 H2 H.
  assert (T : forall (m : list (string * value)) (l : list value) (x : data),
             dict_get key m = Some (VList l) ->
             fst (dispatch key (VDict m) x) = run l x).
  { intros m l x Hm. unfold dispatch_hook.
    destruct m as [|kv m']; [discriminate|].
    cbn [truthy py_in]. rewrite Hm. reflexivity. }
  rewrite (T d _ _ H), (T d1 _ _ H1), run_hooks_app.
  destruct (run l1 hook_data) as [y|e]; simpl; [|reflexivity].
  now rewrite (T d2 _ _ H2).
Qed.

(** X4: a single callable that the caller's [hooks] dict holds under [key]
    is replaced, in that dict, by the one-element list holding it: after the
    call the dict binds [key] to the list, every other key keeps its
    binding, and dispatching again on the rewritten dict gives the same
    result and the same dict.  In every other case [dispatch_hook] leaves
    the caller's [hooks] as they are. *)
Theorem dispatch_hook_hooks_afterwards (key : string) (hooks : value)
    (hook_data : data) :
  (forall d id,
      hooks = VDict d ->
      dict_get key d = Some (VCallable id) ->
      snd (dispatch key hooks hook_data)
      = VDict (od_insert key (VList [VCallable id]) d) /\
      dict_get key (od_insert key (VList [VCallable id]) d)
      = Some (VList [VCallable id]) /\
      (forall k, k <> key ->
         dict_get k (od_insert key (VList [VCallable id]) d) = dict_get k d) /\
      dispatch key (snd (dispatch key hooks hook_data)) hook_data
      = dispatch key hooks hook_data) /\
  ((forall d id, hooks = VDict d -> dict_get key d <> Some (VCallable id)) ->
   snd (dispatch key hooks hook_data) = hooks).
Proof.
  split.
  - intros d id -> Ev.
    assert (Hd : dict_get key (od_insert key (VList [VCallable id]) d)
                 = Some (VList [VCallable id])).
    { rewrite dict_get_od_insert, String.eqb_refl. reflexivity. }
    assert (Ht : truthy (VDict (od_insert key (VList [VCallable id]) d))
                 = true).
    { destruct d as [|[k0 v0] t]; simpl; [reflexivity|].
      destruct (k0 =? key); reflexivity. }
    assert (Ht0 : truthy (VDict d) = true).
    { destruct d as [|kv t]; [discriminate|reflexivity]. }
    assert (E : snd (dispatch key (VDict d) hook_data)
                = VDict (od_insert key (VList [VCallable id]) d)).
    { unfold dispatch_hook. rewrite Ht0. cbn [py_in]. rewrite Ev.
      reflexivity. }
    split; [exact E|]. split; [exact Hd|]. split.
    + intros k Hk. rewrite dict_get_od_insert.
      destruct (key =? k) eqn:Ek; [|reflexivity].
      apply String.eqb_eq in Ek. congruence.
    + rewrite E. unfold dispatch_hook.
      rewrite Ht, Ht0. cbn [py_in]. rewrite Hd, Ev. cbn [is_callable].
      reflexivity.
  - intros H. unfold dispatch_hook.
    destruct (truthy hooks) eqn:Et; [|reflexivity].
    destruct (py_in key hooks) as [[|]|e] eqn:Ei; try reflexivity.
    destruct hooks as [| b | z | s | id | l | l | d]; try reflexivity.
    destruct (dict_get key d) as [v|] eqn:Ev; [|reflexivity].
    destruct (is_callable v) eqn:Ec; [|reflexivity].
    destruct v as [| b | z | s | id | l | l | d']; try discriminate.
    exfalso. exact (H d id eq_refl Ev).
Qed.

End HookFacts.

Lemma dispatch_hook_none_keeps_data_witness :
  fst (Hooks.dispatch_hook nat (fun _ _ => Return None) "response"
         (VDict [("response", VList [VCallable 1; VCallable 2])]) 7%nat)
  = Return 7%nat /\
  7%nat = 7%nat.
Proof.
  split; [reflexivity|].
  apply (dispatch_hook_none_keeps_data nat (fun _ _ => Return None)
           "response"
           (VDict [("response", VList [VCallable 1; VCallable 2])]) 7%nat 7%nat).
  - reflexivity.
  - reflexivity.
Defined.

Lemma dispatch_hook_concatenation_witness :
  fst (Hooks.dispatch_hook nat (fun id d => Return (Some (d * 10 + id)%nat))
         "response"
         (VDict [("response", VList [VCallable 1; VCallable 2; VCallable 3])])
         0%nat)
  = Return 123%nat.
Proof.
  rewrite (dispatch_hook_concatenation nat
             (fun id d => Return (Some (d * 10 + id)%nat)) "response"
             [("response", VList [VCallable 1; VCallable 2; VCallable 3])]
             [("response", VList [VCallable 1])]
             [("response", VList [VCallable 2; VCallable 3])]
             [VCallable 1] [VCallable 2; VCallable 3] 0%nat
             eq_refl eq_refl eq_refl).
  reflexivity.
Defined.

(** *** _internal_utils.py *)

Section InternalUtilsFacts.
Import InternalUtils.

Variable decode : string -> list N -> outcome (list N).

Lemma ascii_decode_spec (b : list N) :
  ascii_decode b =
  if forallb (fun x => (x <? 128)%N) b then Return b
  else Raise (OtherError "UnicodeDecodeError").
Proof.
  induction b as [|x t IH]; simpl.
  - reflexivity.
  - destruct (x <? 128)%N; simpl; [|reflexivity].
    rewrite IH. destruct (forallb _ t); reflexivity.
Qed.

(** X5: With the default encoding, [to_native_string] turns bytes into the
    string of the same code points when every byte is below 128, and that
    string passes [unicode_is_ascii]; it raises [UnicodeDecodeError] as soon
    as one byte is 128 or more.  What it returns is a string it returns
    unchanged when given it again. *)
Theorem to_native_string_ascii (b : list N) :
  (unicode_is_ascii b = true ->
   to_native_string decode (TBytes b) "ascii" = Return b) /\
  (unicode_is_ascii b = false ->
   to_native_string decode (TBytes b) "ascii"
   = Raise (OtherError "UnicodeDecodeError")) /\
  (forall s encoding,
      to_native_string decode (TBytes b) "ascii" = Return s ->
      unicode_is_ascii s = true /\
      to_native_string decode (TStr s) encoding = Return s).
Proof.
  unfold to_native_string, unicode_is_ascii. simpl.
  rewrite ascii_decode_spec.
  destruct (forallb (fun x => (x <? 128)%N) b) eqn:E.
  - split; [reflexivity|]. split; [discriminate|].
    intros s encoding H. injection H as <-. auto.
  - split; [discriminate|]. split; [reflexivity|]. discriminate.
Qed.

End InternalUtilsFacts.

(** *** auth.py: basic and proxy authentication *)

Section HeaderFacts.
Context {V : Type}.

Lemma ci_get_ci_set (k k' : string) (v : V) (d : list (string * V)) :
  ci_get k (ci_set k' v d) =
  if lower k' =? lower k then Some v else ci_get k d.
Proof.
  induction d as [|[k0 v0] t IH]; simpl.
  - reflexivity.
  - destruct (lower k0 =? lower k') eqn:E0; simpl.
    + apply String.eqb_eq in E0. rewrite E0.
      destruct (lower k' =? lower k); reflexivity.
    + destruct (lower k0 =? lower k) eqn:E1.
      * apply String.eqb_eq in E1. rewrite E1 in E0.
        rewrite String.eqb_sym in E0. now rewrite E0.
      * exact IH.
Qed.

Lemma ci_set_ci_set (k : string) (v w : V) (d : list (string * V)) :
  ci_set k w (ci_set k v d) = ci_set k w d.
Proof.
  induction d as [|[k0 v0] t IH]; simpl.
  - now rewrite String.eqb_refl.
  - destruct (lower k0 =? lower k) eqn:E; simpl.
    + now rewrite String.eqb_refl.
    + rewrite E. now rewrite IH.
Qed.

End HeaderFacts.

Section BasicAuthFacts.
Import AuthBasic.

Variable b64encode : string -> string.

Local Abbreviation auth_str := (_basic_auth_str b64encode).
Local Abbreviation basic := (basic_call b64encode).
Local Abbreviation proxy := (proxy_call b64encode).

(** X6: [HTTPBasicAuth.__call__] sets [Authorization] (under any spelling of the
    name) to the basic-auth string and changes nothing else of the request;
    in particular [Proxy-Authorization] stays; calling it again changes
    nothing more, and a later call replaces the credentials of an earlier
    one. *)
Theorem basic_call_sets_authorization (u p u' p' : string)
    (r : PreparedRequest) :
  (forall name,
      ci_get name (req_headers (basic u p r)) =
      if lower name =? "authorization" then Some (Some (auth_str u p))
      else ci_get name (req_headers r)) /\
  ci_get "Proxy-Authorization" (req_headers (basic u p r))
  = ci_get "Proxy-Authorization" (req_headers r) /\
  method (basic u p r) = method r /\
  req_url (basic u p r) = req_url r /\
  body (basic u p r) = body r /\
  basic u p (basic u p r) = basic u p r /\
  basic u' p' (basic u p r) = basic u' p' r.
Proof.
  unfold basic_call, set_header; simpl.
  split; [|split; [|repeat split]].
  - intros name. rewrite ci_get_ci_set.
    change (lower "Authorization") with "authorization".
    now rewrite String.eqb_sym.
  - now rewrite ci_get_ci_set.
  - now rewrite ci_set_ci_set.
  - now rewrite ci_set_ci_set.
Qed.

(** X7: [HTTPProxyAuth.__call__] sets [Proxy-Authorization] and leaves
    [Authorization] alone; it and [HTTPBasicAuth.__call__] can be applied in
    either order: every header reads the same afterwards. *)
Theorem proxy_call_independent (u p u' p' : string) (r : PreparedRequest) :
  ci_get "Proxy-Authorization" (req_headers (proxy u p r))
  = Some (Some (auth_str u p)) /\
  ci_get "Authorization" (req_headers (proxy u p r))
  = ci_get "Authorization" (req_headers r) /\
  (forall name,
      ci_get name (req_headers (basic u' p' (proxy u p r)))
      = ci_get name (req_headers (proxy u p (basic u' p' r)))).
Proof.
  unfold proxy_call, basic_call, set_header; simpl.
  split; [|split].
  - now rewrite ci_get_ci_set.
  - now rewrite ci_get_ci_set.
  - intros name. rewrite !ci_get_ci_set.
    change (lower "Authorization") with "authorization".
    change (lower "Proxy-Authorization") with "proxy-authorization".
    destruct ("authorization" =? lower name) eqn:E; [|reflexivity].
    apply String.eqb_eq in E. rewrite <- E. reflexivity.
Qed.

Lemma append_assoc (a b c : string) : (a ++ b) ++ c = a ++ (b ++ c).
Proof. induction a; simpl; congruence. Qed.

Lemma colon_split_unique (u u' p p' : string) :
  has_char ":" u = false -> has_char ":" u' = false ->
  u ++ ":" ++ p = u' ++ ":" ++ p' -> u = u' /\ p = p'.
Proof.
  revert u'. induction u as [|c t IH]; intros [|c' t'] Hu Hu' H; simpl in *.
  - injection H as H. auto.
  - injection H as H1 H2. subst c'. discriminate.
  - injection H as H1 H2. subst c. discriminate.
  - injection H as H1 H2. subst c'.
    apply orb_false_iff in Hu, Hu'.
    destruct (IH t' (proj2 Hu) (proj2 Hu') H2) as [-> ->]. auto.
Qed.

(** X8: The basic-auth string does not tell a colon in the user name from the
    separator: the user [u:v] with password [p] and the user [u] with
    password [v:p] get the same string.  When [b64encode] is injective and
    the user names hold no colon, different credentials get different
    strings. *)
Theorem basic_auth_str_colon :
  (forall u v p, auth_str (u ++ ":" ++ v) p = auth_str u (v ++ ":" ++ p)) /\
  ((forall x y, b64encode x = b64encode y -> x = y) ->
   forall u p u' p',
     has_char ":" u = false -> has_char ":" u' = false ->
     auth_str u p = auth_str u' p' -> u = u' /\ p = p').
Proof.
  unfold _basic_auth_str. split.
  - intros u v p. f_equal. f_equal. now rewrite !append_assoc.
  - intros Hinj u p u' p' Hu Hu' H.
    simpl in H. injection H as H. apply Hinj in H.
    exact (colon_split_unique u u' p p' Hu Hu' H).
Qed.

(** X9: [HTTPBasicAuth.__eq__] compares class and credentials: on objects of
    [HTTPBasicAuth] and [HTTPProxyAuth] it is reflexive, symmetric and
    transitive, and a proxy-auth object equals the basic-auth object with
    the same credentials; a basic and a digest object never compare equal,
    from either side; [__ne__] is the negation. *)
Theorem basic_eq_equivalence (a b c : object) :
  (isinstance_basic a = true -> basic_eq a a = true) /\
  (isinstance_basic a = true -> isinstance_basic b = true ->
   basic_eq a b = basic_eq b a) /\
  (basic_eq a b = true -> basic_eq b c = true -> basic_eq a c = true) /\
  basic_eq {| class_of := HTTPBasicAuth; username := username a;
              password := password a |}
           {| class_of := HTTPProxyAuth; username := username a;
              password := password a |} = true /\
  (isinstance_basic a = true -> isinstance_digest b = true ->
   basic_eq a b = false /\ digest_eq b a = false) /\
  basic_ne a b = negb (basic_eq a b) /\
  digest_ne a b = negb (digest_eq a b).
Proof.
  assert (R : forall x, attr_eq x x = true).
  { intros [s|]; simpl; [apply String.eqb_refl|reflexivity]. }
  assert (S : forall x y, attr_eq x y = attr_eq y x).
  { intros [s|] [t|]; simpl; try reflexivity. apply String.eqb_sym. }
  assert (T : forall x y z,
             attr_eq x y = true -> attr_eq y z = true -> attr_eq x z = true).
  { intros [s|] [t|] [w|]; simpl; try discriminate; auto.
    rewrite !String.eqb_eq. congruence. }
  split; [|split; [|split; [|split; [|split; [|split]]]]];
    try reflexivity;
    unfold basic_eq, digest_eq; simpl; rewrite ?andb_true_r.
  - intros Ha. now rewrite Ha, !R.
  - intros Ha Hb. rewrite Ha, Hb. now rewrite (S (username a)), (S (password a)).
  - rewrite !andb_true_iff. intros [Hb [Hu Hp]] [Hc [Hu' Hp']].
    eauto 6.
  - now rewrite !R.
  - unfold isinstance_basic, isinstance_digest.
    destruct (class_of a), (class_of b); try discriminate; auto.
Qed.

End BasicAuthFacts.

(** *** auth.py: more on the digest header *)

Section DigestOutcomeFacts.
Import Auth.

Variable md5_hexdigest sha1_hexdigest : string -> string.
Variable urlparse : string -> Urllib.ParseResult.
Variable username password : string.

Local Abbreviation build :=
  (build_digest_header md5_hexdigest sha1_hexdigest urlparse username password).
Local Abbreviation run_all :=
  (run_calls md5_hexdigest sha1_hexdigest urlparse username password).

Lemma select_hash_not_known (c : list (string * option string)) :
  algorithm_known c = false ->
  select_hash md5_hexdigest sha1_hexdigest
    match chal_get "algorithm" c with
    | Some a => upper a
    | None => "MD5"
    end = Unbound.
Proof.
  unfold algorithm_known, select_hash.
  destruct (chal_get "algorithm" c) as [a|]; [|discriminate].
  destruct (upper a =? "MD5"); [discriminate|].
  destruct (upper a =? "MD5-SESS"); [discriminate|].
  destruct (upper a =? "SHA"); [discriminate|reflexivity].
Qed.

Lemma build_digest_header_keeps_counter (env : entropy)
    (method url : string) (tl : thread_local) :
  num_401_calls (snd (build env method url tl)) = num_401_calls tl.
Proof.
  unfold build_digest_header.
  destruct (read_local _ _) as [[hash|]|e]; [|reflexivity|reflexivity].
  destruct (chal_get "nonce" (chal tl)) as [n|]; cbn [nonce_is].
  - destruct (n =? last_nonce tl);
      (destruct (chal_get "qop" (chal tl)) as [q|];
       [destruct (qop_offers_auth q)|]); reflexivity.
  - reflexivity.
Qed.

(** X10: How [build_digest_header] ends once [urlparse] has parsed the URL,
    for a challenge whose algorithm name, if there is one, is ASCII, and the
    state it leaves.  The challenge, the body position and the retry counter
    are never changed.  An algorithm that is not known raises
    [UnboundLocalError] with the state untouched; a known algorithm without
    a nonce raises [AttributeError] after the nonce count was set to 1; a
    [qop] that does not offer [auth] returns [None] after the nonce count
    was updated, the last nonce being kept; otherwise a header is returned
    and the nonce becomes the last nonce. *)
Theorem build_digest_header_outcomes (env : entropy) (method url : string)
    (tl : thread_local) :
  (forall a, chal_get "algorithm" (chal tl) = Some a -> isascii a = true) ->
  chal (snd (build env method url tl)) = chal tl /\
  pos (snd (build env method url tl)) = pos tl /\
  num_401_calls (snd (build env method url tl)) = num_401_calls tl /\
  match fst (build env method url tl) with
  | Raise e =>
      (e = UnboundLocalError "hash_utf8" /\
       algorithm_known (chal tl) = false /\
       snd (build env method url tl) = tl) \/
      (e = AttributeError "encode" /\
       algorithm_known (chal tl) = true /\
       chal_get "nonce" (chal tl) = None /\
       last_nonce (snd (build env method url tl)) = last_nonce tl /\
       nonce_count (snd (build env method url tl)) = 1%N)
  | Return None =>
      computable (chal tl) = true /\
      answerable (chal tl) = false /\
      last_nonce (snd (build env method url tl)) = last_nonce tl /\
      exists nonce,
        chal_get "nonce" (chal tl) = Some nonce /\
        nonce_count (snd (build env method url tl)) =
        if nonce =? last_nonce tl then (nonce_count tl + 1)%N else 1%N
  | Return (Some header) =>
      answerable (chal tl) = true /\
      exists nonce,
        chal_get "nonce" (chal tl) = Some nonce /\
        last_nonce (snd (build env method url tl)) = nonce /\
        nonce_count (snd (build env method url tl)) =
        if nonce =? last_nonce tl then (nonce_count tl + 1)%N else 1%N
  end.
Proof.
  intros _.
  destruct (algorithm_known (chal tl)) eqn:Hk.
  - destruct (select_hash_known md5_hexdigest sha1_hexdigest (chal tl) Hk)
      as [hash Hh].
    unfold build_digest_header, answerable, computable.
    rewrite Hh, Hk. cbn [read_local andb].
    destruct (chal_get "nonce" (chal tl)) as [n|] eqn:En.
    + cbn [nonce_is].
      destruct (chal_get "qop" (chal tl)) as [q|];
        [destruct (qop_offers_auth q)|];
        destruct (n =? last_nonce tl) eqn:El; cbn;
        repeat split; exists n; rewrite El; auto.
    + cbn [nonce_is]. cbn. repeat split. right. repeat split.
  - unfold build_digest_header.
    rewrite (select_hash_not_known (chal tl) Hk). cbn.
    repeat split. left. repeat split.
Qed.

(** X11: Calls that share a nonce count up: after [n] answerable calls on one
    nonce, made on a fresh auth object, the nonce count is [n] and the
    nonce is remembered. *)
Theorem nonce_count_counts_calls (calls : list digest_call) (nonce : string) :
  Forall (fun c => answerable (call_chal c) = true /\
                   chal_get "nonce" (call_chal c) = Some nonce) calls ->
  nonce_count (run_all calls init_state) = N.of_nat (List.length calls) /\
  (calls <> [] -> last_nonce (run_all calls init_state) = nonce).
Proof.
  induction calls as [|c calls IH] using rev_ind; intros H.
  - split; [reflexivity|congruence].
  - apply Forall_app in H. destruct H as [Hcalls Hc].
    inversion Hc as [|? ? [Ha Hn] _]; subst.
    destruct (IH Hcalls) as [IHc IHl].
    rewrite run_calls_snoc. unfold run_call.
    destruct (build_digest_header_answerable md5_hexdigest sha1_hexdigest
                urlparse username password (call_env c) (call_method c)
                (call_url c) (set_chal (call_chal c) (run_all calls init_state))
                nonce Ha Hn) as [h [E _]].
    rewrite E. cbn [snd last_nonce nonce_count set_last_nonce
                    set_nonce_count set_chal].
    split; [|reflexivity].
    rewrite length_app. cbn [List.length].
    destruct calls as [|c0 calls'] using rev_ind.
    + cbn. now destruct (nonce =? "").
    + rewrite IHl by (intros Hx; now apply app_eq_nil in Hx).
      rewrite String.eqb_refl, IHc. lia.
Qed.

End DigestOutcomeFacts.

(** A SHA-256 challenge: the call raises and the challenge is still
    stored. *)
Lemma build_digest_header_outcomes_witness :
  Auth.chal
    (snd (Auth.build_digest_header Sample.md5 Sample.sha1 Urllib.urlparse
            "user" "pass" Sample.env "GET" "http://example.com/a"
            Sample.sha256_state))
  = Auth.chal Sample.sha256_state.
Proof.
  refine (proj1 (build_digest_header_outcomes Sample.md5 Sample.sha1
                   Urllib.urlparse "user" "pass" Sample.env "GET"
                   "http://example.com/a" Sample.sha256_state _)).
  intros a E. cbn in E. injection E as <-. reflexivity.
Defined.

Lemma nonce_count_counts_calls_witness :
  Auth.nonce_count
    (Auth.run_calls Sample.md5 Sample.sha1 Urllib.urlparse "user" "pass"
       [Sample.call "abc" (Some "auth"); Sample.call "abc" None;
        Sample.call "abc" (Some "auth-int,auth")]
       Auth.init_state) = 3%N.
Proof.
  apply (nonce_count_counts_calls Sample.md5 Sample.sha1 Urllib.urlparse
           "user" "pass"
           [Sample.call "abc" (Some "auth"); Sample.call "abc" None;
            Sample.call "abc" (Some "auth-int,auth")] "abc").
  repeat constructor.
Defined.

(** *** auth.py: the retry counter, redirects and the body position *)

Section RetryFacts.
Import Auth.

Variable md5_hexdigest sha1_hexdigest : string -> string.
Variable urlparse : string -> Urllib.ParseResult.
Variable username password : string.
Variable parse_dict_header : string -> list (string * option string).
Variable prepare_cookies : PreparedRequest -> Response -> PreparedRequest.
Variable connection_send : PreparedRequest -> outcome (option Response).

Local Abbreviation build :=
  (build_digest_header md5_hexdigest sha1_hexdigest urlparse username password).
Local Abbreviation handle :=
  (handle_401 md5_hexdigest sha1_hexdigest urlparse username password
     parse_dict_header prepare_cookies connection_send).

(** [handle_401] on a challenge it takes up, whatever
    [build_digest_header] and the connection do. *)
Lemma handle_401_challenge_eq (env : entropy) (r : Response) (w : world) :
  let s_auth :=
    match ci_get "www-authenticate" (headers r) with
    | Some v => v
    | None => ""
    end in
  let prep := prepare_cookies (request r) r in
  let bp :=
    match pos (tls w) with
    | Some p => p
    | None => body_position w
    end in
  (400 <=? status_code r)%Z && (status_code r <? 500)%Z = true ->
  contains "digest" (lower s_auth) && (num_401_calls (tls w) <? 2)%Z = true ->
  handle env r w =
  match build env (method prep) (req_url prep)
          (set_chal (parse_dict_header (re_sub_first_ci "digest " s_auth))
             (set_num_401_calls (num_401_calls (tls w) + 1) (tls w)))
  with
  | (Return a, t) =>
      (match connection_send (set_authorization a prep) with
       | Return (Some _r) => Return (attach r (set_authorization a prep) _r)
       | Return None => Raise (AttributeError "history")
       | Raise e => Raise e
       end,
       {| tls := t; body_position := bp;
          sent := (sent w ++ [set_authorization a prep])%list |})
  | (Raise e, t) =>
      (Raise e, {| tls := t; body_position := bp; sent := sent w |})
  end.
Proof.
  intros s_auth prep bp E1 E2. unfold handle_401. rewrite E1. cbn [negb].
  fold s_auth.
  unfold mbind, get_tls, modify_tls, on_tls, send_on_connection, seek, ret,
    raise, bp.
  destruct (pos (tls w)); cbn [tls body_position sent]; rewrite E2;
    cbn [tls body_position sent]; fold prep;
    destruct (build _ _ _ _) as [[a|e] t]; cbn [tls body_position sent];
    try reflexivity;
    destruct (connection_send (set_authorization a prep)) as [[_r|]|e];
    reflexivity.
Qed.

(** What one call of [handle_401] does to the counter and to the log of
    requests sent: it sends nothing and resets the counter to 1, or the
    counter was below 2 and is one more, with at most one request sent. *)
Lemma handle_401_step (env : entropy) (r : Response) (w : world) :
  (sent (snd (handle env r w)) = sent w /\
   num_401_calls (tls (snd (handle env r w))) = 1%Z) \/
  ((num_401_calls (tls w) < 2)%Z /\
   num_401_calls (tls (snd (handle env r w)))
   = (num_401_calls (tls w) + 1)%Z /\
   (sent (snd (handle env r w)) = sent w \/
    exists prep, sent (snd (handle env r w)) = (sent w ++ [prep])%list)).
Proof.
  destruct ((400 <=? status_code r)%Z && (status_code r <? 500)%Z) eqn:E1.
  - destruct (contains "digest"
                (lower match ci_get "www-authenticate" (headers r) with
                       | Some v => v
                       | None => ""
                       end)
              && (num_401_calls (tls w) <? 2)%Z) eqn:E2.
    + right.
      assert (Hlt : (num_401_calls (tls w) < 2)%Z).
      { apply andb_true_iff in E2. destruct E2 as [_ E2].
        now apply Z.ltb_lt in E2. }
      split; [exact Hlt|].
      rewrite (handle_401_challenge_eq env r w E1 E2).
      match goal with
      | |- context [build ?e ?m ?u ?t] =>
          pose proof (build_digest_header_keeps_counter md5_hexdigest
                        sha1_hexdigest urlparse username password e m u t)
            as Hn;
          destruct (build e m u t) as [[a|e'] t']
      end; cbn [snd tls sent] in *.
      * split; [exact Hn|]. right. eauto.
      * split; [exact Hn|]. now left.
    + left.
      rewrite (handle_401_no_challenge md5_hexdigest sha1_hexdigest urlparse
                 username password parse_dict_header prepare_cookies
                 connection_send env r w E1 E2).
      split; reflexivity.
  - left.
    rewrite (handle_401_not_4xx md5_hexdigest sha1_hexdigest urlparse
               username password parse_dict_header prepare_cookies
               connection_send env r w E1).
    split; reflexivity.
Qed.

(** X12: Two calls of [handle_401] in a row send at most one request between
    them, whatever the two responses are and whatever the connection does,
    once the retry counter is at least 1 (it is 1 on a new auth object); the
    counter stays between 1 and 2. *)
Theorem handle_401_no_two_in_a_row (env1 env2 : entropy) (r1 r2 : Response)
    (w : world) :
  (1 <= num_401_calls (tls w))%Z ->
  (List.length (sent (snd (handle env2 r2 (snd (handle env1 r1 w))))) <=
   List.length (sent w) + 1)%nat /\
  (1 <= num_401_calls (tls (snd (handle env1 r1 w))) <= 2)%Z /\
  (1 <= num_401_calls (tls (snd (handle env2 r2 (snd (handle env1 r1 w)))))
   <= 2)%Z.
Proof.
  intros H1.
  set (w1 := snd (handle env1 r1 w)).
  destruct (handle_401_step env1 r1 w) as [[S1 N1]|[L1 [N1 S1]]];
    fold w1 in S1, N1;
    destruct (handle_401_step env2 r2 w1) as [[S2 N2]|[L2 [N2 S2]]];
    rewrite ?N2, ?N1 in *; try lia.
  - rewrite S2, S1. lia.
  - destruct S2 as [S2|[p S2]]; rewrite S2, ?length_app, S1; simpl; lia.
  - destruct S1 as [S1|[p S1]]; rewrite S2, S1, ?length_app; simpl; lia.
Qed.

(** X13: [handle_401] moves the request body back to the recorded position on
    every 4xx response, whether or not it resends and whatever happens
    then, and leaves the body where it is on any other response. *)
Theorem handle_401_rewinds_body (env : entropy) (r : Response) (w : world) :
  body_position (snd (handle env r w)) =
  if (400 <=? status_code r)%Z && (status_code r <? 500)%Z then
    match pos (tls w) with
    | Some p => p
    | None => body_position w
    end
  else body_position w.
Proof.
  destruct ((400 <=? status_code r)%Z && (status_code r <? 500)%Z) eqn:E1.
  - destruct (contains "digest"
                (lower match ci_get "www-authenticate" (headers r) with
                       | Some v => v
                       | None => ""
                       end)
              && (num_401_calls (tls w) <? 2)%Z) eqn:E2.
    + rewrite (handle_401_challenge_eq env r w E1 E2).
      destruct (build _ _ _ _) as [[a|e] t]; reflexivity.
    + rewrite (handle_401_no_challenge md5_hexdigest sha1_hexdigest urlparse
                 username password parse_dict_header prepare_cookies
                 connection_send env r w E1 E2).
      reflexivity.
  - rewrite (handle_401_not_4xx md5_hexdigest sha1_hexdigest urlparse
               username password parse_dict_header prepare_cookies
               connection_send env r w E1).
    reflexivity.
Qed.

(** X14: A redirect re-arms the retry counter: after [handle_redirect] has seen
    a redirect response, [handle_401] takes up a computable digest challenge
    on a 4xx response and sends one request, whatever the counter was
    before; on a response that is no redirect [handle_redirect] changes
    nothing. *)
Theorem handle_redirect_rearms (env : entropy) (redirect r : Response)
    (w : world) :
  is_redirect redirect = true ->
  (400 <= status_code r < 500)%Z ->
  contains "digest"
    (lower match ci_get "www-authenticate" (headers r) with
           | Some v => v
           | None => ""
           end) = true ->
  computable
    (parse_dict_header
       (re_sub_first_ci "digest "
          match ci_get "www-authenticate" (headers r) with
          | Some v => v
          | None => ""
          end)) = true ->
  (exists prep,
      sent (snd (handle env r (snd (AuthBasic.handle_redirect redirect w))))
      = (sent w ++ [prep])%list) /\
  (forall other, is_redirect other = false ->
     AuthBasic.handle_redirect other w = (Return tt, w)).
Proof.
  intros Hr Hs Hd Hc. split.
  - unfold AuthBasic.handle_redirect. rewrite Hr.
    unfold modify_tls. cbn [snd].
    set (w1 := {| tls := set_num_401_calls 1 (tls w);
                  body_position := body_position w; sent := sent w |}).
    assert (E1 : (400 <=? status_code r)%Z && (status_code r <? 500)%Z = true).
    { apply andb_true_iff. rewrite Z.leb_le, Z.ltb_lt. lia. }
    assert (E2 : contains "digest"
                   (lower match ci_get "www-authenticate" (headers r) with
                          | Some v => v
                          | None => ""
                          end)
                 && (num_401_calls (tls w1) <? 2)%Z = true).
    { rewrite Hd. reflexivity. }
    rewrite (handle_401_challenge_eq env r w1 E1 E2).
    match goal with
    | |- context [build ?e ?m ?u ?t] =>
        destruct (build_digest_header_computable md5_hexdigest
                    sha1_hexdigest urlparse username password e m u t Hc)
          as [a [t' [Eb _]]];
        rewrite Eb
    end.
    cbn [snd sent w1]. eauto.
  - intros other Ho. unfold AuthBasic.handle_redirect. now rewrite Ho.
Qed.

End RetryFacts.

Lemma handle_401_no_two_in_a_row_witness :
  (List.length
     (Auth.sent
        (snd (Auth.handle_401 Sample.md5 Sample.sha1 Urllib.urlparse
                "user" "pass" Sample.parse_dict_header Sample.prepare_cookies
                Sample.connection_send Sample.env
                (Sample.challenge 401 "Digest realm=r, nonce=abc, qop=auth")
                (snd (Auth.handle_401 Sample.md5 Sample.sha1 Urllib.urlparse
                        "user" "pass" Sample.parse_dict_header
                        Sample.prepare_cookies Sample.connection_send
                        Sample.env
                        (Sample.challenge 401
                           "Digest realm=r, nonce=abc, qop=auth")
                        Sample.fresh)))))
   <= 1)%nat.
Proof.
  apply (handle_401_no_two_in_a_row Sample.md5 Sample.sha1 Urllib.urlparse
           "user" "pass" Sample.parse_dict_header Sample.prepare_cookies
           Sample.connection_send Sample.env Sample.env
           (Sample.challenge 401 "Digest realm=r, nonce=abc, qop=auth")
           (Sample.challenge 401 "Digest realm=r, nonce=abc, qop=auth")
           Sample.fresh).
  simpl. lia.
Defined.

Lemma handle_redirect_rearms_witness :
  exists prep,
    Auth.sent
      (snd (Auth.handle_401 Sample.md5 Sample.sha1 Urllib.urlparse
              "user" "pass" Sample.parse_dict_header Sample.prepare_cookies
              Sample.connection_send Sample.env
              (Sample.challenge 401 "Digest realm=r, nonce=abc, qop=auth")
              (snd (AuthBasic.handle_redirect
                      {| status_code := 302; headers := [("Location", "/b")];
                         url := "http://example.com/a"; history := [];
                         request := Sample.get_a |}
                      {| Auth.tls := Auth.set_num_401_calls 2 Auth.init_state;
                         Auth.body_position := 0; Auth.sent := [] |}))))
    = [prep].
Proof.
  apply (handle_redirect_rearms Sample.md5 Sample.sha1 Urllib.urlparse
           "user" "pass" Sample.parse_dict_header Sample.prepare_cookies
           Sample.connection_send Sample.env
           {| status_code := 302; headers := [("Location", "/b")];
              url := "http://example.com/a"; history := [];
              request := Sample.get_a |}
           (Sample.challenge 401 "Digest realm=r, nonce=abc, qop=auth")
           {| Auth.tls := Auth.set_num_401_calls 2 Auth.init_state;
              Auth.body_position := 0; Auth.sent := [] |}).
  - reflexivity.
  - simpl. lia.
  - reflexivity.
  - reflexivity.
Defined.

(** *** adapters.py: sending, TLS settings and proxies *)

Section BaseSendFacts.
Import Adapters.

Variable connection : Type.
Variable get_connection : string -> value -> outcome connection.
Variable urlopen :
  connection -> PreparedRequest -> bool -> value -> outcome RawResponse.

Local Abbreviation base_send :=
  (BaseAdapter.send connection get_connection urlopen).


End BaseSendFacts.

Section CertVerifyFacts.
Import AdapterPools.

Variable DEFAULT_CA_BUNDLE_PATH : string.

Local Abbreviation verify_cert := (cert_verify DEFAULT_CA_BUNDLE_PATH).

(** X16: [cert_verify] turns verification off only for [verify=False] itself:
    the connection gets [CERT_NONE] exactly then and [CERT_REQUIRED] for
    every other value, whether or not the call then fails on [cert].  It
    never touches [ca_cert_dir].  Without a [cert] the client-certificate
    attributes keep what the connection held before, and a single path
    replaces [cert_file] but leaves the old [key_file] in place. *)
Theorem cert_verify_effects (conn : tls_fields) (url : string)
    (verify cert : value) :
  (cert_reqs (snd (verify_cert conn url verify cert)) = VStr "CERT_NONE" <->
   verify = VBool false) /\
  (verify <> VBool false ->
   cert_reqs (snd (verify_cert conn url verify cert)) = VStr "CERT_REQUIRED") /\
  ca_cert_dir (snd (verify_cert conn url verify cert)) = ca_cert_dir conn /\
  (truthy cert = false ->
   fst (verify_cert conn url verify cert) = Return tt /\
   cert_file (snd (verify_cert conn url verify cert)) = cert_file conn /\
   key_file (snd (verify_cert conn url verify cert)) = key_file conn) /\
  (forall p, cert = VStr p -> p <> "" ->
   fst (verify_cert conn url verify cert) = Return tt /\
   cert_file (snd (verify_cert conn url verify cert)) = VStr p /\
   key_file (snd (verify_cert conn url verify cert)) = key_file conn).
Proof.
  assert (A : forall c0,
             cert_reqs (snd (verify_cert c0 url verify cert)) =
             match verify with
             | VBool false => VStr "CERT_NONE"
             | _ => VStr "CERT_REQUIRED"
             end /\
             ca_cert_dir (snd (verify_cert c0 url verify cert))
             = ca_cert_dir c0).
  { intros c0. unfold cert_verify.
    destruct (truthy cert).
    - destruct cert as [| b | z | p | id | l | l | d];
        try (destruct verify as [| [|] | | | | | |]; split; reflexivity).
      + destruct l as [|c0' [|c1 l']];
          destruct verify as [| [|] | | | | | |]; split; reflexivity.
      + destruct l as [|c0' [|c1 l']];
          destruct verify as [| [|] | | | | | |]; split; reflexivity.
    - destruct verify as [| [|] | | | | | |]; split; reflexivity. }
  destruct (A conn) as [A1 A2].
  split; [|split; [|split; [|split]]].
  - rewrite A1. split.
    + destruct verify as [| [|] | | | | | |]; intros H;
        try discriminate; reflexivity.
    + intros ->. reflexivity.
  - intros H. rewrite A1.
    destruct verify as [| [|] | | | | | |]; try reflexivity.
    congruence.
  - exact A2.
  - intros Ht. unfold cert_verify. rewrite Ht.
    destruct verify as [| [|] | | | | | |]; repeat split.
  - intros p -> Hp. unfold cert_verify.
    assert (Ht : truthy (VStr p) = true).
    { simpl. apply String.eqb_neq in Hp. now rewrite Hp. }
    rewrite Ht.
    destruct verify as [| [|] | | | | | |]; repeat split.
Qed.

End CertVerifyFacts.

Section PoolFacts.
Import Adapters AdapterPools.

Variable urlparse : string -> Urllib.ParseResult.
Variable isdir : string -> bool.
Variable b64encode : string -> string.
Variable get_auth_from_url : string -> string * string.
Variable select_proxy : string -> value -> option string.
Variable manager : Type.
Variable proxy_from_url : string -> list (string * value) -> outcome manager.
Variable _preloaded_ssl_context : value.
Variable pool_connection_from_url : string -> outcome nat.
Variable manager_connection_from_url : manager -> string -> outcome nat.
Variable DEFAULT_CA_BUNDLE_PATH : string.

Local Abbreviation headers_for := (proxy_headers b64encode get_auth_from_url).
Local Abbreviation manager_for :=
  (proxy_manager_for b64encode get_auth_from_url manager proxy_from_url
     _preloaded_ssl_context).
Local Abbreviation conn_for :=
  (connection_for b64encode get_auth_from_url select_proxy manager
     proxy_from_url _preloaded_ssl_context pool_connection_from_url
     manager_connection_from_url).
Local Abbreviation with_tls :=
  (get_connection_with_tls_context urlparse isdir b64encode
     get_auth_from_url select_proxy manager proxy_from_url
     _preloaded_ssl_context pool_connection_from_url
     manager_connection_from_url).
Local Abbreviation without_tls :=
  (get_connection b64encode get_auth_from_url select_proxy manager
     proxy_from_url _preloaded_ssl_context pool_connection_from_url
     manager_connection_from_url).
Local Abbreviation pool_key :=
  (HTTPAdapter.build_connection_pool_key_attributes urlparse isdir).

Lemma proxy_manager_for_connections (proxy : string)
    (kw : list (string * value)) (a : adapter manager) :
  connections manager (snd (manager_for proxy kw a)) = connections manager a /\
  config manager (snd (manager_for proxy kw a)) = config manager a.
Proof.
  unfold proxy_manager_for.
  destruct (dict_get proxy (proxy_manager manager a)); [split; reflexivity|].
  destruct (proxy_from_url _ _); split; reflexivity.
Qed.

Lemma connection_for_connections (url : string) (proxies : value)
    (a : adapter manager) :
  connections manager (snd (conn_for url proxies a)) = connections manager a.
Proof.
  unfold connection_for.
  destruct (select_proxy url proxies) as [p|]; [|reflexivity].
  destruct (negb (p =? "")); [|reflexivity].
  pose proof (proxy_manager_for_connections p [] a) as [H _].
  destruct (manager_for p [] a) as [[m|e] a']; exact H.
Qed.

Lemma cert_reqs_of_verify (verify cert : value) :
  get_or "cert_reqs" (VStr "CERT_REQUIRED")
    (HTTPAdapter.ssl_params_cert cert
       (HTTPAdapter.ssl_params_verify isdir verify))
  = match verify with
    | VBool false => VStr "CERT_NONE"
    | _ => VStr "CERT_REQUIRED"
    end.
Proof.
  unfold get_or. rewrite ssl_params_cert_frame by discriminate.
  destruct verify as [| [|] | | p | | | |]; try reflexivity.
  simpl. destruct (isdir p); reflexivity.
Qed.

(** With no port in the URL the pool key raises before any pool is
    touched. *)
Lemma with_tls_no_port (request : PreparedRequest)
    (verify cert proxies : value) (a : adapter manager) :
  Urllib.port (urlparse (req_url request)) = None ->
  with_tls request verify proxies cert a = (Raise (OtherError "NameError"), a).
Proof.
  intros H. unfold get_connection_with_tls_context.
  now rewrite (pool_key_no_port urlparse isdir request verify cert H).
Qed.

(** With a port in the URL the connection comes from the pools and gets the
    TLS parameters of the key. *)
Lemma with_tls_with_port (request : PreparedRequest)
    (verify cert proxies : value) (a : adapter manager) (port : Z) :
  Urllib.port (urlparse (req_url request)) = Some port ->
  with_tls request verify proxies cert a =
  match conn_for (req_url request) proxies a with
  | (Return conn, a') =>
      (Return conn,
       {| proxy_manager := proxy_manager manager a';
          config := config manager a';
          created := created manager a';
          connections :=
            fun c =>
              if Nat.eqb c conn
              then tls_of_params
                     (HTTPAdapter.ssl_params_cert cert
                        (HTTPAdapter.ssl_params_verify isdir verify))
              else connections manager a' c |})
  | (Raise e, a') => (Raise e, a')
  end.
Proof.
  intros H. unfold get_connection_with_tls_context.
  now rewrite (pool_key_with_port urlparse isdir request verify cert port H).
Qed.

(** A returned connection means the URL named its port. *)
Lemma with_tls_returns (request : PreparedRequest)
    (verify cert proxies : value) (a b : adapter manager) (c : nat) :
  with_tls request verify proxies cert a = (Return c, b) ->
  exists port, Urllib.port (urlparse (req_url request)) = Some port.
Proof.
  destruct (Urllib.port (urlparse (req_url request))) as [port|] eqn:E.
  - intros _. now exists port.
  - rewrite (with_tls_no_port request verify cert proxies a E). discriminate.
Qed.

(** X17: [get_connection_with_tls_context] overwrites all five TLS attributes of
    the connection it returns, from [verify] and [cert] alone: whatever the
    connection held from an earlier request, whichever request, proxy or
    adapter state led to it, the attributes are the same.  Verification is
    off exactly for [verify=False]; no other connection is touched. *)
Theorem tls_context_overwrites (request request' : PreparedRequest)
    (verify cert proxies proxies' : value) (a a' b b' : adapter manager)
    (c c' : nat) :
  with_tls request verify proxies cert a = (Return c, b) ->
  with_tls request' verify proxies' cert a' = (Return c', b') ->
  connections manager b c = connections manager b' c' /\
  (cert_reqs (connections manager b c) = VStr "CERT_NONE" <->
   verify = VBool false) /\
  (forall other, other <> c ->
     connections manager b other = connections manager a other).
Proof.
  intros H H'.
  destruct (with_tls_returns _ _ _ _ _ _ _ H) as [port E].
  destruct (with_tls_returns _ _ _ _ _ _ _ H') as [port' E'].
  rewrite (with_tls_with_port _ _ _ _ _ _ E) in H.
  rewrite (with_tls_with_port _ _ _ _ _ _ E') in H'.
  pose proof (connection_for_connections (req_url request) proxies a) as Ha.
  destruct (conn_for (req_url request) proxies a) as [[k|e] a1];
    [|discriminate].
  destruct (conn_for (req_url request') proxies' a') as [[k'|e'] a1'];
    [|discriminate].
  injection H as <- <-. injection H' as <- <-.
  cbn [connections snd] in *. rewrite !Nat.eqb_refl.
  split; [reflexivity|]. split.
  - unfold tls_of_params. cbn [cert_reqs].
    rewrite cert_reqs_of_verify.
    destruct verify as [| [|] | | | | | |]; split; intros H;
      try discriminate; reflexivity.
  - intros other Ho. apply Nat.eqb_neq in Ho. rewrite Ho. now rewrite Ha.
Qed.

(** X18: the connection that [get_connection_with_tls_context] returns
    verifies the certificate exactly when the old [cert_verify] makes a
    connection do so, for every [verify] and [cert]: the two give the same
    [cert_reqs]. *)
Theorem cert_reqs_agree (conn : tls_fields) (url : string)
    (request : PreparedRequest) (verify cert proxies : value)
    (a b : adapter manager) (c : nat) :
  with_tls request verify proxies cert a = (Return c, b) ->
  cert_reqs (snd (cert_verify DEFAULT_CA_BUNDLE_PATH conn url verify cert))
  = cert_reqs (connections manager b c).
Proof.
  intros H.
  destruct (with_tls_returns _ _ _ _ _ _ _ H) as [port E].
  rewrite (with_tls_with_port _ _ _ _ _ _ E) in H.
  destruct (conn_for (req_url request) proxies a) as [[k|e] a1];
    [|discriminate].
  injection H as <- <-. cbn [connections]. rewrite Nat.eqb_refl.
  unfold tls_of_params. cbn [cert_reqs]. rewrite cert_reqs_of_verify.
  unfold cert_verify.
  destruct (truthy cert).
  - destruct cert as [| b0 | z | p | id | l | l | d];
      try (destruct verify as [| [|] | | | | | |]; reflexivity);
      destruct l as [|c0 [|c1 l']];
      destruct verify as [| [|] | | | | | |]; reflexivity.
  - destruct verify as [| [|] | | | | | |]; reflexivity.
Qed.

(** X19: [proxy_manager_for] makes one manager per proxy URL: once it has
    returned a manager for a proxy, every later call for that proxy returns
    the same manager and changes nothing, whatever keyword arguments it is
    given; the first call made one [proxy_from_url] call and left the
    managers of the other proxies alone. *)
Theorem proxy_manager_for_caches (proxy : string)
    (kw : list (string * value)) (a a' : adapter manager) (m : manager) :
  manager_for proxy kw a = (Return m, a') ->
  (forall kw', manager_for proxy kw' a' = (Return m, a')) /\
  (List.length (created manager a') <= List.length (created manager a) + 1)%nat /\
  (forall other, other <> proxy ->
     dict_get other (proxy_manager manager a')
     = dict_get other (proxy_manager manager a)).
Proof.
  unfold proxy_manager_for.
  destruct (dict_get proxy (proxy_manager manager a)) as [m0|] eqn:E.
  - intros H. injection H as <- <-. rewrite E.
    split; [reflexivity|]. split; [lia|]. reflexivity.
  - destruct (proxy_from_url _ _) as [m1|e]; [|discriminate].
    intros H. injection H as <- <-. cbn [proxy_manager created].
    rewrite dict_get_od_insert, String.eqb_refl.
    split; [reflexivity|]. split.
    + rewrite length_app. simpl. lia.
    + intros other Ho. rewrite dict_get_od_insert.
      destruct (proxy =? other) eqn:Eo; [|reflexivity].
      apply String.eqb_eq in Eo. congruence.
Qed.

(** X20: [proxy_headers] gives the [Proxy-Authorization] header that
    [HTTPProxyAuth] would put on a request, when the proxy URL holds both a
    user name and a password, and no header at all otherwise. *)
Theorem proxy_headers_match_proxy_auth (proxy : string) (r : PreparedRequest) :
  (fst (get_auth_from_url proxy) <> "" ->
   snd (get_auth_from_url proxy) <> "" ->
   exists v,
     headers_for proxy = [("Proxy-Authorization", VStr v)] /\
     ci_get "proxy-authorization"
       (req_headers
          (AuthBasic.proxy_call b64encode (fst (get_auth_from_url proxy))
             (snd (get_auth_from_url proxy)) r))
     = Some (Some v)) /\
  (fst (get_auth_from_url proxy) = "" \/ snd (get_auth_from_url proxy) = "" ->
   headers_for proxy = []).
Proof.
  unfold proxy_headers.
  destruct (get_auth_from_url proxy) as [u p]. cbn [fst snd]. split.
  - intros Hu Hp. apply String.eqb_neq in Hu, Hp. rewrite Hu, Hp.
    eexists. split; [reflexivity|].
    unfold AuthBasic.proxy_call, AuthBasic.set_header. cbn [req_headers].
    now rewrite ci_get_ci_set.
  - intros [-> | ->]; [reflexivity|].
    now rewrite andb_false_r.
Qed.

(** X21: for a URL that names its port the deprecated [get_connection]
    picks the same pooled connection as [get_connection_with_tls_context]
    and has the same effect on the proxy managers; for a URL without a port
    [get_connection_with_tls_context] raises [NameError] and leaves the
    adapter as it was.  [get_connection] leaves the TLS attributes of every
    connection as they were. *)
Theorem get_connection_same_pool (request : PreparedRequest)
    (verify cert proxies : value) (a : adapter manager) :
  (forall port,
      Urllib.port (urlparse (req_url request)) = Some port ->
      fst (without_tls (req_url request) proxies a)
      = fst (with_tls request verify proxies cert a) /\
      proxy_manager manager (snd (without_tls (req_url request) proxies a))
      = proxy_manager manager (snd (with_tls request verify proxies cert a)) /\
      created manager (snd (without_tls (req_url request) proxies a))
      = created manager (snd (with_tls request verify proxies cert a))) /\
  (Urllib.port (urlparse (req_url request)) = None ->
   with_tls request verify proxies cert a
   = (Raise (OtherError "NameError"), a)) /\
  connections manager (snd (without_tls (req_url request) proxies a))
  = connections manager a.
Proof.
  split; [|split].
  - intros port E. rewrite (with_tls_with_port _ _ _ _ _ _ E).
    unfold get_connection.
    destruct (conn_for (req_url request) proxies a) as [[k|e] a1];
      cbn [fst snd proxy_manager created]; auto.
  - intros E. now apply with_tls_no_port.
  - unfold get_connection. apply connection_for_connections.
Qed.

End PoolFacts.

(** A pooled connection that still holds the CA bundle and the client
    certificate of an earlier request is handed out for [verify=False]. *)
Lemma tls_context_overwrites_witness :
  AdapterPools.cert_reqs
    (AdapterPools.connections string
       (snd (AdapterPools.get_connection_with_tls_context Urllib.urlparse
               (fun p => p =? "/etc/ssl/certs") (fun x => x)
               (fun _ => ("", ""))
               (fun _ _ => None) string (fun p _ => Return p) VNone
               (fun _ => Return 5%nat) (fun _ _ => Return 6%nat)
               Sample.get_8443 (VBool false) VNone VNone
               {| AdapterPools.proxy_manager := [];
                  AdapterPools.config := [];
                  AdapterPools.created := [];
                  AdapterPools.connections :=
                    fun _ =>
                      AdapterPools.mkTls (VStr "CERT_REQUIRED")
                        (VStr "old-ca") VNone (VStr "old-cert")
                        (VStr "old-key") |}))
       5%nat)
  = VStr "CERT_NONE".
Proof.
  set (a := {| AdapterPools.proxy_manager := [];
               AdapterPools.config := [];
               AdapterPools.created := [];
               AdapterPools.connections :=
                 fun _ =>
                   AdapterPools.mkTls (VStr "CERT_REQUIRED")
                     (VStr "old-ca") VNone (VStr "old-cert")
                     (VStr "old-key") |}).
  set (b := snd (AdapterPools.get_connection_with_tls_context
                   Urllib.urlparse (fun p => p =? "/etc/ssl/certs")
                   (fun x => x)
                   (fun _ => ("", "")) (fun _ _ => None) string
                   (fun p _ => Return p) VNone (fun _ => Return 5%nat)
                   (fun _ _ => Return 6%nat) Sample.get_8443 (VBool false)
                   VNone VNone a)).
  exact (proj2 (proj1 (proj2
           (tls_context_overwrites Urllib.urlparse
              (fun p => p =? "/etc/ssl/certs") (fun x => x)
              (fun _ => ("", ""))
              (fun _ _ => None) string (fun p _ => Return p) VNone
              (fun _ => Return 5%nat) (fun _ _ => Return 6%nat)
              Sample.get_8443 Sample.get_8443 (VBool false) VNone VNone VNone
              a a b b 5%nat 5%nat eq_refl eq_refl))) eq_refl).
Defined.

(** The old [cert_verify] on a fresh connection and the new method on a
    pooled one, for a client certificate given as a pair. *)
Lemma cert_reqs_agree_witness :
  AdapterPools.cert_reqs
    (snd (AdapterPools.cert_verify "/etc/ssl/cert.pem"
            (AdapterPools.mkTls VNone VNone VNone VNone VNone)
            "https://example.com:8443/a" (VBool true)
            (VTuple [VStr "c.pem"; VStr "k.pem"])))
  = AdapterPools.cert_reqs
      (AdapterPools.connections string
         (snd (AdapterPools.get_connection_with_tls_context Urllib.urlparse
                 (fun p => p =? "/etc/ssl/certs") (fun x => x)
                 (fun _ => ("", ""))
                 (fun _ _ => None) string (fun p _ => Return p) VNone
                 (fun _ => Return 5%nat) (fun _ _ => Return 6%nat)
                 Sample.get_8443 (VBool true) VNone
                 (VTuple [VStr "c.pem"; VStr "k.pem"])
                 {| AdapterPools.proxy_manager := [];
                    AdapterPools.config := [];
                    AdapterPools.created := [];
                    AdapterPools.connections :=
                      fun _ =>
                        AdapterPools.mkTls VNone VNone VNone VNone VNone |}))
         5%nat).
Proof.
  set (a := {| AdapterPools.proxy_manager := [];
               AdapterPools.config := [];
               AdapterPools.created := [];
               AdapterPools.connections :=
                 fun _ => AdapterPools.mkTls VNone VNone VNone VNone VNone |}).
  exact (cert_reqs_agree Urllib.urlparse
           (fun p => p =? "/etc/ssl/certs") (fun x => x)
           (fun _ => ("", ""))
           (fun _ _ => None) string (fun p _ => Return p) VNone
           (fun _ => Return 5%nat) (fun _ _ => Return 6%nat)
           "/etc/ssl/cert.pem"
           (AdapterPools.mkTls VNone VNone VNone VNone VNone)
           "https://example.com:8443/a"
           Sample.get_8443 (VBool true) (VTuple [VStr "c.pem"; VStr "k.pem"])
           VNone a
           (snd (AdapterPools.get_connection_with_tls_context Urllib.urlparse
                   (fun p => p =? "/etc/ssl/certs") (fun x => x)
                   (fun _ => ("", ""))
                   (fun _ _ => None) string (fun p _ => Return p) VNone
                   (fun _ => Return 5%nat) (fun _ _ => Return 6%nat)
                   Sample.get_8443 (VBool true) VNone
                   (VTuple [VStr "c.pem"; VStr "k.pem"]) a))
           5%nat eq_refl).
Defined.

Lemma proxy_manager_for_caches_witness :
  AdapterPools.proxy_manager_for (fun x => x)
    (fun _ => ("user", "pw")) string (fun p _ => Return p) VNone
    "http://proxy.example:3128" [("timeout", VInt 5)]
    (snd (AdapterPools.proxy_manager_for (fun x => x)
            (fun _ => ("user", "pw")) string (fun p _ => Return p) VNone
            "http://proxy.example:3128" []
            {| AdapterPools.proxy_manager := []; AdapterPools.config := [];
               AdapterPools.created := [];
               AdapterPools.connections :=
                 fun _ => AdapterPools.mkTls VNone VNone VNone VNone VNone |}))
  = (Return "http://proxy.example:3128",
     snd (AdapterPools.proxy_manager_for (fun x => x)
            (fun _ => ("user", "pw")) string (fun p _ => Return p) VNone
            "http://proxy.example:3128" []
            {| AdapterPools.proxy_manager := []; AdapterPools.config := [];
               AdapterPools.created := [];
               AdapterPools.connections :=
                 fun _ => AdapterPools.mkTls VNone VNone VNone VNone VNone |})).
Proof.
  set (a := {| AdapterPools.proxy_manager := []; AdapterPools.config := [];
               AdapterPools.created := [];
               AdapterPools.connections :=
                 fun _ => AdapterPools.mkTls VNone VNone VNone VNone VNone |}).
  exact (proj1
           (proxy_manager_for_caches (fun x => x)
              (fun _ => ("user", "pw")) string (fun p _ => Return p) VNone
              "http://proxy.example:3128" [] a
              (snd (AdapterPools.proxy_manager_for (fun x => x)
                      (fun _ => ("user", "pw")) string (fun p _ => Return p)
                      VNone "http://proxy.example:3128" [] a))
              "http://proxy.example:3128" eq_refl)
           [("timeout", VInt 5)]).
Defined.

(** *** sessions.py: more on merging, and pickling *)

Section MergeMoreFacts.
Import Sessions.
Context {V : Type}.

Lemma keys_od_insert_in (k k' : string) (v : V) (d : list (string * V)) :
  In k' (map fst (od_insert k v d)) <-> k' = k \/ In k' (map fst d).
Proof.
  induction d as [|[k0 v0] t IH]; simpl.
  - intuition.
  - destruct (k0 =? k) eqn:E; simpl.
    + apply String.eqb_eq in E. subst k0. intuition.
    + rewrite IH. intuition.
Qed.

Lemma keys_od_insert_nodup (k : string) (v : V) (d : list (string * V)) :
  NoDup (map fst d) -> NoDup (map fst (od_insert k v d)).
Proof.
  induction d as [|[k0 v0] t IH]; simpl; intros H.
  - constructor; [intros []|constructor].
  - inversion H as [|? ? Hn Hd]; subst.
    destruct (k0 =? k) eqn:E; simpl.
    + constructor; assumption.
    + constructor; [|auto].
      rewrite keys_od_insert_in. intros [->|Hi]; [|contradiction].
      now rewrite String.eqb_refl in E.
Qed.

Lemma keys_od_update_spec (items d : list (string * V)) :
  NoDup (map fst d) ->
  NoDup (map fst (od_update d items)) /\
  forall k, In k (map fst (od_update d items)) <->
            In k (map fst d) \/ In k (map fst items).
Proof.
  unfold od_update. revert d.
  induction items as [|[k0 v0] t IH]; intros d H; simpl.
  - split; [assumption|]. intuition.
  - destruct (IH (od_insert k0 v0 d) (keys_od_insert_nodup k0 v0 d H))
      as [N I].
    split; [exact N|].
    intros k. rewrite I, keys_od_insert_in. intuition.
Qed.

End MergeMoreFacts.

Section SessionMoreFacts.
Import Sessions SessionState.

(** X22: Merging two mappings loses no key and invents none: the merged dict
    binds exactly the keys of the session setting and of the per-call
    setting, each once. *)
Theorem merge_setting_keys (req sess : list (string * value)) :
  exists merged,
    merge_setting (VDict req) (VDict sess) = VDict merged /\
    NoDup (map fst merged) /\
    forall k, In k (map fst merged) <->
              In k (map fst sess) \/ In k (map fst req).
Proof.
  eexists. split; [reflexivity|]. simpl.
  destruct (keys_od_update_spec sess ([] : list (string * value))
              (NoDup_nil _)) as [N1 I1].
  destruct (keys_od_update_spec req (dict_class sess) N1) as [N2 I2].
  split; [exact N2|].
  intros k. rewrite I2. unfold dict_class. rewrite I1. simpl. intuition.
Qed.

Lemma merged_lookup (k : string) (req sess : list (string * value)) :
  dict_get k (od_update (dict_class sess) req) =
  match items_get k req with
  | Some v => Some v
  | None => items_get k sess
  end.
Proof. now rewrite dict_get_od_update, dict_get_dict_class. Qed.

(** X23: Merging is associative as far as lookups go: with three mappings, the
    most specific one folded over the merge of the other two reads the same
    as the merge of the two most specific ones folded over the third; a key
    has the value of the first of the three that binds it. *)
Theorem merge_setting_associative (a b c : list (string * value))
    (k : string) :
  py_get (merge_setting (VDict a) (merge_setting (VDict b) (VDict c))) k
  = py_get (merge_setting (merge_setting (VDict a) (VDict b)) (VDict c)) k.
Proof.
  simpl. f_equal.
  assert (N : forall x y : list (string * value),
             NoDup (map fst (od_update (dict_class y) x))).
  { intros x y.
    apply keys_od_update_spec. unfold dict_class.
    apply (keys_od_update_spec y ([] : list (string * value))).
    constructor. }
  rewrite !merged_lookup.
  rewrite (items_get_nodup k _ (N b c)), (items_get_nodup k _ (N a b)).
  rewrite !merged_lookup.
  destruct (items_get k a); [reflexivity|].
  destruct (items_get k b); reflexivity.
Qed.

(** X24: [merge_hooks] works on mappings only: session hooks that are neither
    [None] nor a mapping, or per-call hooks of that kind next to session
    hooks that are set, raise [AttributeError]; on [None] and mappings it
    always returns, and what it returns is one of its two arguments or
    their merge. *)
Theorem merge_hooks_errors :
  (forall req sess,
      is_none sess = false -> is_mapping sess = false ->
      merge_hooks req sess = Raise (AttributeError "get")) /\
  (forall req sess,
      is_mapping sess = true ->
      hooks_unset sess = Return false ->
      is_none req = false -> is_mapping req = false ->
      merge_hooks req sess = Raise (AttributeError "get")) /\
  (forall req sess,
      is_none req || is_mapping req = true ->
      is_none sess || is_mapping sess = true ->
      merge_hooks req sess = Return req \/
      merge_hooks req sess = Return sess \/
      merge_hooks req sess = Return (merge_setting req sess)).
Proof.
  split; [|split].
  - intros req sess Hn Hm. unfold merge_hooks, hooks_unset. rewrite Hn.
    destruct sess; try discriminate; reflexivity.
  - intros req sess Hm Hu Hn Hq. unfold merge_hooks. rewrite Hu. simpl.
    unfold hooks_unset. rewrite Hn.
    destruct req; try discriminate; reflexivity.
  - intros req sess Hr Hs. unfold merge_hooks, hooks_unset.
    destruct sess as [| | | | | | |d]; try discriminate; simpl; auto.
    destruct (eq_empty_list _); simpl; auto.
    destruct req as [| | | | | | |d']; try discriminate; simpl; auto.
    destruct (eq_empty_list _); simpl; auto.
Qed.

Lemma getstate_lookup (self : list (string * value)) (attr : string) :
  dict_get attr (__getstate__ self) =
  if existsb (String.eqb attr) __attrs__ then Some (getattr self attr)
  else None.
Proof.
  destruct (existsb (String.eqb attr) __attrs__) eqn:E.
  - apply existsb_exists in E. destruct E as [x [Hin Hx]].
    apply String.eqb_eq in Hx. subst x.
    unfold __attrs__ in Hin. simpl in Hin.
    repeat (destruct Hin as [<-|Hin]; [reflexivity|]).
    contradiction.
  - unfold __getstate__. rewrite dict_get_dict_class.
    apply items_get_none. rewrite map_map.
    intros Hin.
    assert (T : existsb (String.eqb attr) __attrs__ = true).
    { apply existsb_exists. exists attr. split; [exact Hin|].
      apply String.eqb_refl. }
    congruence.
Qed.

(** X25: Pickling round trip: after [__setstate__] with the state
    [__getstate__] took from a session, every attribute named in
    [__attrs__] reads as it did on that session and every other attribute of
    the receiving object is as before; taking the state of the restored
    object gives the same state again. *)
Theorem session_state_round_trip (self other : list (string * value)) :
  (forall attr,
      getattr (__setstate__ other (__getstate__ self)) attr =
      if existsb (String.eqb attr) __attrs__ then getattr self attr
      else getattr other attr) /\
  __getstate__ (__setstate__ other (__getstate__ self)) = __getstate__ self.
Proof.
  assert (N : NoDup (map fst (__getstate__ self))).
  { unfold __getstate__, dict_class.
    apply (keys_od_update_spec _ ([] : list (string * value))).
    constructor. }
  assert (A : forall attr,
      getattr (__setstate__ other (__getstate__ self)) attr =
      if existsb (String.eqb attr) __attrs__ then getattr self attr
      else getattr other attr).
  { intros attr. unfold getattr at 1.
    change (__setstate__ other (__getstate__ self))
      with (od_update other (__getstate__ self)).
    rewrite dict_get_od_update, (items_get_nodup attr _ N), getstate_lookup.
    destruct (existsb (String.eqb attr) __attrs__); reflexivity. }
  split; [exact A|].
  unfold __getstate__ at 1 3. f_equal.
  apply map_ext_in. intros attr Hin. f_equal.
  rewrite A.
  assert (T : existsb (String.eqb attr) __attrs__ = true).
  { apply existsb_exists. exists attr. split; [exact Hin|].
    apply String.eqb_refl. }
  now rewrite T.
Qed.

End SessionMoreFacts.
